(** * Pooled diagnostic-accuracy estimator of mito_biomarker_review

    A shallow embedding of the statistical core of
    [scripts/automated_meta_analysis.py], of its sibling
    [scripts/automation_framework_future_use.py] and of
    [scripts/real_data_meta_analysis.py], together with the properties the
    specification states about it.

    Numbers.  The scripts compute with Python floats and numpy [float64]
    values.  They are modelled twice.  The main model takes them to be real
    numbers: arithmetic is exact, there is no rounding, overflow or NaN inside
    a computation; the properties proved over it are properties of the
    formulas the code evaluates.  The module [F64] gives the numerical core a
    second time over binary64 floats, operation by operation; it decides the
    properties that rounding can break (an equality, a strict order), which
    hold of the running code only where they are proved over [F64].  The one
    place where NaN matters to control flow (a missing sample size read by
    pandas) is modelled explicitly by [cell].  Counts and sample sizes are
    integers ([Z]).  Python's [max] and [min] of two numbers are [Rmax] and
    [Rmin].

    Errors.  [np.average] raises when the weights sum to zero or when the two
    arrays differ in length, and indexing a table by a column it does not
    have raises [KeyError]; this is modelled by the error monad [py]. *)

From Stdlib Require Import PrimFloat.
From Stdlib Require Uint63.
From Stdlib Require Import Reals Lra Lia ZArith List String Bool.
From stdpp Require Import base list strings gmap.
Import ListNotations.

Set Warnings "-inexact-float".

Open Scope R_scope.

(** ** Exceptions and the error monad *)

Inductive exn : Type :=
| ZeroDivisionError
| TypeError
| KeyError.

Inductive py (A : Type) : Type :=
| Ret (a : A)
| Raise (e : exn).

Arguments Ret {A} a.
Arguments Raise {A} e.

#[global] Instance py_ret : MRet py := fun A a => Ret a.

#[global] Instance py_bind : MBind py := fun A B k m =>
  match m with
  | Ret a => k a
  | Raise e => Raise e
  end.

(** ** The numpy operations the scripts use *)

Module np.

(** [np.sum(a)]: the elements are added from left to right, starting at 0. *)
Definition sum (a : list R) : R := fold_left Rplus a 0.

(** [a * b] on two arrays of one length: the elementwise product. *)
Fixpoint multiply (a b : list R) : list R :=
  match a, b with
  | x :: a', y :: b' => x * y :: multiply a' b'
  | _, _ => []
  end.

(** [np.average(a, weights=w)].  numpy refuses arrays of different shapes,
    raises [ZeroDivisionError] when the weights sum to zero and returns
    [np.multiply(a, w).sum() / w.sum()] otherwise. *)
Definition average (a w : list R) : py R :=
  if Nat.eqb (length a) (length w) then
    let scl := sum w in
    if Req_dec_T scl 0 then Raise ZeroDivisionError
    else Ret (sum (multiply a w) / scl)
  else Raise TypeError.

End np.

(** ** Rows of the meta-analysis table

    A cell of the columns [n_patients] and [n_controls] as pandas hands it to
    [row.get]: the column may be absent, the value may be Python's [None], the
    float NaN of a missing entry, or a number. *)

Inductive cell : Type :=
| Absent
| PyNone
| NaN
| Num (n : Z).

(** A cell of the text columns [conditions], [biomaterial] and
    [analytical_method]: the column may be absent from the table, the entry
    may be missing (dropped by [dropna]), or it holds a text. *)
Inductive text_cell : Type :=
| TextAbsent
| TextMissing
| Text (s : string).

(** A row of [meta_analysis_ready_table.csv].  The name and the two
    performance columns, which the loop indexes before anything is pooled,
    are in the table and hold [None] where the entry is missing (pandas'
    [notna] is false).  The other five columns may be absent. *)
Record row : Type := mkRow {
  biomarker_name : option string;
  sensitivity_mean : option R;
  specificity_mean : option R;
  n_patients : cell;
  n_controls : cell;
  conditions : text_cell;
  biomaterial : text_cell;
  analytical_method : text_cell
}.

(** [row.get(col, 0) or 0]: an absent column gives the default 0, a falsy
    value ([None], 0) gives 0, NaN is truthy and stays NaN.  The result is
    [None] for NaN. *)
Definition get_or_0 (c : cell) : option Z :=
  match c with
  | Absent => Some 0%Z
  | PyNone => Some 0%Z
  | NaN => None
  | Num n => Some n
  end.

(** The sum [n_total] of the two cells; NaN is absorbing. *)
Definition n_total (r : row) : option Z :=
  match get_or_0 (n_patients r), get_or_0 (n_controls r) with
  | Some p, Some c => Some (p + c)%Z
  | _, _ => None
  end.

(** The body of the loop of [calculate_weights]: [n_total > 0] is false for
    NaN. *)
Definition row_weight (r : row) : Z :=
  match n_total r with
  | Some n => if (0 <? n)%Z then n else 1%Z
  | None => 1%Z
  end.

(** [AutomatedMetaAnalysis.calculate_weights]. *)
Definition calculate_weights (data : list row) : list R :=
  map (fun r => IZR (row_weight r)) data.

(** The sibling in [automation_framework_future_use.py] appends
    [max(1, n_total)]; Python's [max(1, x)] keeps 1 unless [x > 1], so NaN
    gives 1 as well. *)
Definition row_weight_framework (r : row) : Z :=
  match n_total r with
  | Some n => if (1 <? n)%Z then n else 1%Z
  | None => 1%Z
  end.

Definition calculate_weights_framework (data : list row) : list R :=
  map (fun r => IZR (row_weight_framework r)) data.

(** ** [AutomatedMetaAnalysis]: the pooled estimator *)

(** What one pooling of one metric adds to the result dictionary: the keys
    [pooled_*], [*_se], [*_ci_lower], [*_ci_upper] and [*_heterogeneity]. *)
Record metric_pool : Type := mkMetricPool {
  pooled : R;
  standard_error : R;
  ci_lower : R;
  ci_upper : R;
  heterogeneity : R
}.

(** The dictionary built by [calculate_pooled_estimates] (the key
    [biomarker] is the key under which the dictionary is stored).
    [sensitivity], [specificity] and [diagnostic_odds_ratio] are [None] when
    their keys are not in the dictionary; [diagnostic_odds_ratio] is
    [Some None] when the key holds Python's [None].  The three lists and the
    two totals are always in the dictionary, where a total [None] is Python's
    [None]. *)
Record pooled_result : Type := mkPooledResult {
  n_studies : nat;
  n_studies_sens : nat;
  n_studies_spec : nat;
  sensitivity : option metric_pool;
  specificity : option metric_pool;
  diagnostic_odds_ratio : option (option R);
  conditions_studied : list string;
  biomaterials : list string;
  analytical_methods : list string;
  total_patients : option Z;
  total_controls : option Z
}.

(** [x ** 2] *)
Definition sq (x : R) : R := x * x.

(** [(values - m) ** 2] on an array. *)
Definition sq_dev (values : list R) (m : R) : list R :=
  map (fun v => sq (v - m)) values.

(** [calculate_standard_error] *)
Definition calculate_standard_error (values weights : list R) : py R :=
  if (length values <? 2)%nat then mret 0
  else
    m ← np.average values weights;
    weighted_var ← np.average (sq_dev values m) weights;
    mret (sqrt (weighted_var / INR (length values))).

(** [calculate_heterogeneity] *)
Definition calculate_heterogeneity (values weights : list R) : py R :=
  if (length values <? 2)%nat then mret 0
  else
    weighted_mean ← np.average values weights;
    let q_stat := np.sum (np.multiply weights (sq_dev values weighted_mean)) in
    let df := INR (length values - 1) in
    let i_squared :=
      if Rle_dec q_stat df then 0 else ((q_stat - df) / q_stat) * 100 in
    mret (Rmin 100 (Rmax 0 i_squared)).

(** The sibling [calculate_heterogeneity] of
    [automation_framework_future_use.py], which clips from above only. *)
Definition calculate_heterogeneity_framework (values weights : list R) : py R :=
  if (length values <? 2)%nat then mret 0
  else
    weighted_mean ← np.average values weights;
    let q_stat := np.sum (np.multiply weights (sq_dev values weighted_mean)) in
    let df := INR (length values - 1) in
    if Rle_dec q_stat df then mret 0
    else mret (Rmin 100 (((q_stat - df) / q_stat) * 100)).

(** [calculate_diagnostic_odds_ratio], on the percentage scale: [None] is
    Python's [None]. *)
Definition calculate_diagnostic_odds_ratio (sensitivity specificity : R)
  : option R :=
  if Req_dec_T sensitivity 0 then None
  else if Req_dec_T sensitivity 100 then None
  else if Req_dec_T specificity 0 then None
  else if Req_dec_T specificity 100 then None
  else
    let sens := sensitivity / 100 in
    let spec := specificity / 100 in
    Some ((sens / (1 - sens)) / ((1 - spec) / spec)).

(** pandas' [notna] on a performance column, and the [.values] of a column
    (the entries that are there). *)
Definition notna (c : option R) : bool :=
  match c with Some _ => true | None => false end.

Definition column_values (col : row -> option R) (data : list row) : list R :=
  omap col data.

(** The rows with performance data: a sensitivity or a specificity. *)
Definition valid_rows (data : list row) : list row :=
  List.filter (fun r => notna (sensitivity_mean r)
                        || notna (specificity_mean r)) data.

(** [data[col].sum() if data[col].notna().any() else None] for a sample-size
    column.  Indexing raises [KeyError] when the table does not have the
    column, which shows in a row as an [Absent] cell; [sum] skips the missing
    entries. *)
Definition is_absent (c : cell) : bool :=
  match c with Absent => true | _ => false end.

Definition cell_number (c : cell) : option Z :=
  match c with Num n => Some n | _ => None end.

Definition column_total (col : row -> cell) (data : list row)
  : py (option Z) :=
  if existsb (fun r => is_absent (col r)) data then Raise KeyError
  else
    match omap (fun r => cell_number (col r)) data with
    | [] => mret None
    | numbers => mret (Some (fold_left Z.add numbers 0%Z))
    end.

(** pandas' [unique()]: the distinct values in the order of their first
    appearance. *)
Fixpoint unique (names : list string) : list string :=
  match names with
  | [] => []
  | name :: names' =>
      name :: List.filter (fun other => negb (String.eqb name other))
                (unique names')
  end.

(** [list(data[col].dropna().unique())] for a text column.  Indexing raises
    [KeyError] when the table does not have the column, which shows in a row
    as a [TextAbsent] cell; [dropna] skips the missing entries. *)
Definition is_text_absent (c : text_cell) : bool :=
  match c with TextAbsent => true | _ => false end.

Definition cell_text (c : text_cell) : option string :=
  match c with Text s => Some s | _ => None end.

Definition column_unique (col : row -> text_cell) (data : list row)
  : py (list string) :=
  if existsb (fun r => is_text_absent (col r)) data then Raise KeyError
  else mret (unique (omap (fun r => cell_text (col r)) data)).

(** [data[data[col].notna()]]: the rows that report the column. *)
Definition reporting (col : row -> option R) (data : list row) : list row :=
  List.filter (fun r => notna (col r)) data.

Section Estimator.

(** [scipy.stats.norm.ppf], the inverse of the standard normal distribution
    function. *)
Variable norm_ppf : R -> R.

(** [calculate_confidence_interval(estimate, se, confidence)] *)
Definition calculate_confidence_interval (estimate se confidence : R)
  : R * R :=
  let z_score := norm_ppf ((1 + confidence) / 2) in
  let margin := z_score * se in
  (Rmax 0 (estimate - margin), Rmin 100 (estimate + margin)).

(** The body of [if len(sens_data) >= 2:] in [calculate_pooled_estimates]
    (and of its twin for the specificity), with the default confidence
    0.95. *)
Definition pool_metric (values weights : list R) : py metric_pool :=
  pooled_est ← np.average values weights;
  se ← calculate_standard_error values weights;
  let ci := calculate_confidence_interval pooled_est se (95 / 100) in
  het ← calculate_heterogeneity values weights;
  mret (mkMetricPool pooled_est se (fst ci) (snd ci) het).

(** One metric of [calculate_pooled_estimates]: the rows that report the
    column are pooled when there are at least two of them, otherwise no key
    is added. *)
Definition pool_column (col : row -> option R) (data : list row)
  : py (option metric_pool) :=
  let col_data := reporting col data in
  if (2 <=? length col_data)%nat then
    r ← pool_metric (column_values col col_data) (calculate_weights col_data);
    mret (Some r)
  else mret None.

(** [calculate_pooled_estimates] *)
Definition calculate_pooled_estimates (data : list row) : py pooled_result :=
  let sens_data := reporting sensitivity_mean data in
  let spec_data := reporting specificity_mean data in
  sens ← pool_column sensitivity_mean data;
  spec ← pool_column specificity_mean data;
  let dor :=
    match sens, spec with
    | Some s, Some p =>
        Some (calculate_diagnostic_odds_ratio (pooled s) (pooled p))
    | _, _ => None
    end in
  conds ← column_unique conditions data;
  materials ← column_unique biomaterial data;
  methods ← column_unique analytical_method data;
  patients ← column_total n_patients data;
  controls ← column_total n_controls data;
  mret (mkPooledResult (length data) (length sens_data) (length spec_data)
          sens spec dor conds materials methods patients controls).

(** The body of the loop of [perform_meta_analysis_by_biomarker] for the rows
    of one biomarker: [None] when the biomarker is skipped ([continue]),
    otherwise the entry stored in [self.results]. *)
Definition meta_analysis_of_biomarker (biomarker_data : list row)
  : py (option pooled_result) :=
  let valid_data := valid_rows biomarker_data in
  if (length valid_data <? 2)%nat then mret None
  else
    meta_result ← calculate_pooled_estimates valid_data;
    mret (Some meta_result).

(** [data[data['biomarker_name'] == biomarker]]; a missing name equals no
    biomarker. *)
Definition rows_of_biomarker (data : list row) (biomarker : string)
  : list row :=
  List.filter (fun r => match biomarker_name r with
                        | Some name => String.eqb name biomarker
                        | None => false
                        end) data.

(** The loop of [perform_meta_analysis_by_biomarker] over the names, with
    [self.results] threaded through.  The names come out of [dropna], so of
    the two tests that skip a name only the one for the empty name can hold.
    The dictionary [meta_result] is never empty, so [if meta_result:] holds
    whenever the biomarker was not skipped. *)
Fixpoint analyse_biomarkers (data : list row) (biomarkers : list string)
    (results : gmap string pooled_result) : py (gmap string pooled_result) :=
  match biomarkers with
  | [] => mret results
  | biomarker :: rest =>
      if String.eqb biomarker EmptyString
      then analyse_biomarkers data rest results
      else
        meta_result ←
          meta_analysis_of_biomarker (rows_of_biomarker data biomarker);
        match meta_result with
        | None => analyse_biomarkers data rest results
        | Some m => analyse_biomarkers data rest (<[biomarker := m]> results)
        end
  end.

(** [perform_meta_analysis_by_biomarker]: without data nothing happens;
    otherwise every named biomarker of the table is analysed. *)
Definition perform_meta_analysis_by_biomarker (data : option (list row))
    (results : gmap string pooled_result) : py (gmap string pooled_result) :=
  match data with
  | None => mret results
  | Some table =>
      analyse_biomarkers table (unique (omap biomarker_name table)) results
  end.

End Estimator.

(** ** [RealDataMetaAnalysis]: pooling of 2x2 tables, on the proportion scale *)

Module RealData.

(** A study of [load_real_study_data]: the 2x2 table and the group sizes. *)
Record study : Type := mkStudy {
  biomarker : string;
  tp : Z;
  fp : Z;
  fn : Z;
  tn : Z;
  st_n_patients : Z;
  st_n_controls : Z
}.

(** A float that may be [float('inf')]. *)
Inductive xreal : Type :=
| Fin (x : R)
| Inf.

Record study_metrics : Type := mkStudyMetrics {
  sm_n_patients : Z;
  sm_n_controls : Z;
  sm_n_total : Z;
  sm_sensitivity : R;
  sm_specificity : R;
  sm_sens_ci : R * R;
  sm_spec_ci : R * R;
  sm_dor : xreal;
  sm_lr_positive : xreal;
  sm_lr_negative : xreal
}.

(** The diagnostic odds ratio of [calculate_study_metrics]:
    [(tp * tn) / (fp * fn) if fp > 0 and fn > 0 else float('inf')]. *)
Definition study_dor (tp fp fn tn : Z) : xreal :=
  if ((0 <? fp) && (0 <? fn))%Z then Fin (IZR (tp * tn) / IZR (fp * fn))
  else Inf.

(** [calculate_study_metrics]; the constant 1.96 is written 196 / 100. *)
Definition calculate_study_metrics (s : study) : study_metrics :=
  let sensitivity :=
    if (0 <? tp s + fn s)%Z then IZR (tp s) / IZR (tp s + fn s) else 0 in
  let specificity :=
    if (0 <? tn s + fp s)%Z then IZR (tn s) / IZR (tn s + fp s) else 0 in
  let sens_se :=
    if (0 <? tp s + fn s)%Z
    then sqrt (sensitivity * (1 - sensitivity) / IZR (tp s + fn s)) else 0 in
  let spec_se :=
    if (0 <? tn s + fp s)%Z
    then sqrt (specificity * (1 - specificity) / IZR (tn s + fp s)) else 0 in
  let sens_ci := (Rmax 0 (sensitivity - 196 / 100 * sens_se),
                  Rmin 1 (sensitivity + 196 / 100 * sens_se)) in
  let spec_ci := (Rmax 0 (specificity - 196 / 100 * spec_se),
                  Rmin 1 (specificity + 196 / 100 * spec_se)) in
  let lr_pos :=
    if Rlt_dec specificity 1 then Fin (sensitivity / (1 - specificity))
    else Inf in
  let lr_neg :=
    if Rlt_dec 0 specificity then Fin ((1 - sensitivity) / specificity)
    else Inf in
  mkStudyMetrics (st_n_patients s) (st_n_controls s)
    (tp s + fp s + fn s + tn s) sensitivity specificity
    sens_ci spec_ci (study_dor (tp s) (fp s) (fn s) (tn s)) lr_pos lr_neg.

(** The dictionary returned by [perform_meta_analysis_biomarker], without
    the name and the list of the individual studies, and with the two
    standard errors, which the function computes but does not store. *)
Record meta_result : Type := mkMetaResult {
  mr_n_studies : nat;
  mr_total_patients : Z;
  mr_total_controls : Z;
  pooled_sensitivity : R;
  sensitivity_se : R;
  sensitivity_ci : R * R;
  sensitivity_i2 : R;
  pooled_specificity : R;
  specificity_se : R;
  specificity_ci : R * R;
  specificity_i2 : R;
  pooled_dor : option R;
  summary_auc : R
}.

(** The 95% interval around a pooled proportion, with the constant 1.96. *)
Definition confidence_interval (estimate se : R) : R * R :=
  (Rmax 0 (estimate - 196 / 100 * se), Rmin 1 (estimate + 196 / 100 * se)).

(** [max(0, (q - df) / q * 100) if q > df else 0] *)
Definition i_squared (q df : R) : R :=
  if Rlt_dec df q then Rmax 0 ((q - df) / q * 100) else 0.

(** The finite odds ratios, of which the positive ones are averaged on the
    log scale. *)
Definition log_dors (metrics : list study_metrics) : list R :=
  flat_map (fun m => match sm_dor m with
                     | Fin d => if Rlt_dec 0 d then [ln d] else []
                     | Inf => []
                     end) metrics.

(** [perform_meta_analysis_biomarker]: [Ret None] is the early
    [return None]. *)
Definition perform_meta_analysis_biomarker
    (studies_data : list study) (biomarker_name : string)
  : py (option meta_result) :=
  let biomarker_studies :=
    List.filter (fun s => String.eqb (biomarker s) biomarker_name)
      studies_data in
  if (length biomarker_studies <? 2)%nat then mret None
  else
    let metrics := map calculate_study_metrics biomarker_studies in
    let sensitivities := map sm_sensitivity metrics in
    let specificities := map sm_specificity metrics in
    let weights := map (fun m => IZR (sm_n_total m)) metrics in
    pooled_sens ← np.average sensitivities weights;
    pooled_spec ← np.average specificities weights;
    sens_var ← np.average (sq_dev sensitivities pooled_sens) weights;
    spec_var ← np.average (sq_dev specificities pooled_spec) weights;
    let sens_se := sqrt (sens_var / INR (length sensitivities)) in
    let spec_se := sqrt (spec_var / INR (length specificities)) in
    let sens_q := np.sum (np.multiply weights (sq_dev sensitivities pooled_sens)) in
    let spec_q := np.sum (np.multiply weights (sq_dev specificities pooled_spec)) in
    let df := INR (length sensitivities - 1) in
    let lds := log_dors metrics in
    let dor :=
      match lds with
      | [] => None
      | _ => Some (exp (np.sum lds / INR (length lds)))
      end in
    mret (Some (mkMetaResult (length metrics)
                  (fold_left Z.add (map sm_n_patients metrics) 0%Z)
                  (fold_left Z.add (map sm_n_controls metrics) 0%Z)
                  pooled_sens sens_se (confidence_interval pooled_sens sens_se)
                  (i_squared sens_q df)
                  pooled_spec spec_se (confidence_interval pooled_spec spec_se)
                  (i_squared spec_q df)
                  dor ((pooled_sens + pooled_spec) / 2))).

End RealData.

(** ** The numerical core in binary64

    The functions [np.average], [calculate_standard_error],
    [calculate_confidence_interval] and [calculate_heterogeneity] once more,
    on IEEE 754 binary64 numbers with numpy's order of operations.  The
    weights are the integers of [calculate_weights] as doubles. *)

Module F64.

Local Open Scope float_scope.

(** An integer such as [len(values)] as a double. *)
Definition of_nat (n : nat) : float := of_uint63 (Uint63.of_Z (Z.of_nat n)).

(** [res += a[i]] for every [i], from left to right. *)
Definition add_all (res : float) (a : list float) : float :=
  fold_left PrimFloat.add a res.

(** [r[j] += a[j]] for the eight accumulators of numpy's summation. *)
Fixpoint add_each (r a : list float) : list float :=
  match r, a with
  | x :: r', y :: a' => x + y :: add_each r' a'
  | _, _ => []
  end.

Fixpoint add_blocks (blocks : nat) (r a : list float)
  : list float * list float :=
  match blocks with
  | O => (r, a)
  | S blocks' => add_blocks blocks' (add_each r (take 8 a)) (drop 8 a)
  end.

(** The sum of 8 to 128 doubles: eight accumulators take the blocks of eight,
    are added in pairs, and the elements left over are added one by one. *)
Definition block_sum (a : list float) : float :=
  let '(r, rest) := add_blocks (length a / 8 - 1) (take 8 a) (drop 8 a) in
  match r with
  | [r0; r1; r2; r3; r4; r5; r6; r7] =>
      add_all (((r0 + r1) + (r2 + r3)) + ((r4 + r5) + (r6 + r7))) rest
  | _ => add_all (-0) a
  end.

(** numpy's [pairwise_sum]: fewer than 8 doubles are added from left to
    right, up to 128 by [block_sum], and a longer array is split near its
    middle, at a multiple of 8.  The halving stops after fewer steps than the
    array has elements, which is the [fuel] that [sum] provides. *)
Fixpoint pairwise_sum (fuel : nat) (a : list float) : float :=
  let n := length a in
  if (n <? 8)%nat then add_all (-0) a
  else if (n <=? 128)%nat then block_sum a
  else
    match fuel with
    | O => block_sum a
    | S fuel' =>
        let n2 := (n / 2 - (n / 2) mod 8)%nat in
        pairwise_sum fuel' (take n2 a) + pairwise_sum fuel' (drop n2 a)
    end.

(** [a.sum()] on an array of doubles: the reduction adds the pairwise sum to
    its initial value.  (Only the sign of a zero sum depends on that value;
    no comparison of the scripts tells the two zeros apart.) *)
Definition sum (a : list float) : float := 0 + pairwise_sum (length a) a.

(** [a * b] on two arrays of one length. *)
Fixpoint multiply (a b : list float) : list float :=
  match a, b with
  | x :: a', y :: b' => x * y :: multiply a' b'
  | _, _ => []
  end.

(** [np.average(a, weights=w)] *)
Definition average (a w : list float) : py float :=
  if Nat.eqb (length a) (length w) then
    let scl := sum w in
    if scl =? 0 then Raise ZeroDivisionError
    else Ret (sum (multiply a w) / scl)
  else Raise TypeError.

(** [(values - m) ** 2]; numpy squares by one multiplication. *)
Definition sq_dev (values : list float) (m : float) : list float :=
  map (fun v => (v - m) * (v - m)) values.

(** [calculate_standard_error] *)
Definition calculate_standard_error (values weights : list float)
  : py float :=
  if (length values <? 2)%nat then mret 0
  else
    m ← average values weights;
    weighted_var ← average (sq_dev values m) weights;
    mret (PrimFloat.sqrt (weighted_var / of_nat (length values))).

(** Python's [max(0, x)] and [min(hi, x)]: the first argument is kept unless
    the second is strictly beyond it. *)
Definition max0 (x : float) : float := if 0 <? x then x else 0.

Definition min_of (hi x : float) : float := if x <? hi then x else hi.

(** [calculate_confidence_interval], given the value [z_score] of
    [stats.norm.ppf((1 + confidence) / 2)]. *)
Definition calculate_confidence_interval (z_score estimate se : float)
  : float * float :=
  let margin := z_score * se in
  (max0 (estimate - margin), min_of 100 (estimate + margin)).

(** [calculate_heterogeneity] *)
Definition calculate_heterogeneity (values weights : list float)
  : py float :=
  if (length values <? 2)%nat then mret 0
  else
    weighted_mean ← average values weights;
    let q_stat := sum (multiply weights (sq_dev values weighted_mean)) in
    let df := of_nat (length values - 1) in
    let i_squared :=
      if q_stat <=? df then 0 else ((q_stat - df) / q_stat) * 100 in
    mret (min_of 100 (max0 i_squared)).

End F64.

(** ** The specification's vocabulary *)

(** Σ over a list. *)
Fixpoint total (l : list R) : R :=
  match l with
  | [] => 0
  | x :: l' => x + total l'
  end.

(** A study measurement of the specification: a point estimate with its
    weight. *)
Record measurement : Type := mkMeasurement {
  estimate : R;
  weight : R
}.

(** The measurements behind an array of values and an array of weights. *)
Fixpoint measurements (values weights : list R) : list measurement :=
  match values, weights with
  | v :: values', w :: weights' =>
      mkMeasurement v w :: measurements values' weights'
  | _, _ => []
  end.

(** Σ(estimate·weight) / Σ(weight) *)
Definition weighted_mean (ms : list measurement) : R :=
  total (map (fun m => estimate m * weight m) ms) / total (map weight ms).

(** Q = Σ(weight·(estimate − pooledEstimate)²) *)
Definition q_statistic (ms : list measurement) (pooled_estimate : R) : R :=
  total (map (fun m => weight m * ((estimate m - pooled_estimate)
                                   * (estimate m - pooled_estimate))) ms).

(** Clipping to an interval. *)
Definition clip (lo hi x : R) : R := Rmin hi (Rmax lo x).

(** heterogeneityI2 as step 8 of the specification words it. *)
Definition i2_of (q df : R) : R :=
  if Rle_dec q df then 0 else clip 0 100 (((q - df) / q) * 100).

(** The least and the greatest element of a list, [d] for the empty one. *)
Definition minimum (d : R) (l : list R) : R :=
  match l with
  | [] => d
  | x :: l' => fold_left Rmin l' x
  end.

Definition maximum (d : R) (l : list R) : R :=
  match l with
  | [] => d
  | x :: l' => fold_left Rmax l' x
  end.

(** The effective sample size of a row is a positive number. *)
Definition is_positive_number (n : option Z) : Prop :=
  exists k, n = Some k /\ (0 < k)%Z.

(** The measurements pooled for one column of a table: the estimates of the
    rows that report the column, each with the weight [calculate_weights]
    gives its row. *)
Definition column_measurements (col : row -> option R) (data : list row)
  : list measurement :=
  measurements (column_values col (reporting col data))
    (calculate_weights (reporting col data)).

(** The same for the studies of one biomarker in [RealDataMetaAnalysis]:
    the studies selected by name, their weights [n_total] and the
    measurements of one metric. *)
Definition studies_of (studies_data : list RealData.study) (name : string)
  : list RealData.study :=
  List.filter (fun s => String.eqb (RealData.biomarker s) name) studies_data.

Definition study_weights (studies : list RealData.study) : list R :=
  map (fun m => IZR (RealData.sm_n_total m))
    (map RealData.calculate_study_metrics studies).

Definition study_measurements (metric : RealData.study_metrics -> R)
    (studies : list RealData.study) : list measurement :=
  measurements (map metric (map RealData.calculate_study_metrics studies))
    (study_weights studies).

(** The scenario of the specification: three studies with the estimates
    0.80, 0.74 and 0.71 and the sample sizes 140, 196 and 102 (patients and
    controls in equal numbers). *)
Definition scenario : list row :=
  [mkRow (Some "GDF-15") (Some (80 / 100)) None (Num 70) (Num 70)
     (Text "MELAS") (Text "serum") (Text "ELISA");
   mkRow (Some "GDF-15") (Some (74 / 100)) None (Num 98) (Num 98)
     (Text "MELAS") (Text "serum") (Text "ELISA");
   mkRow (Some "GDF-15") (Some (71 / 100)) None (Num 51) (Num 51)
     (Text "MELAS") (Text "serum") (Text "ELISA")].

(** The scenario with a larger first study. *)
Definition scenario_heavier : list row :=
  [mkRow (Some "GDF-15") (Some (80 / 100)) None (Num 100) (Num 100)
     (Text "MELAS") (Text "serum") (Text "ELISA");
   mkRow (Some "GDF-15") (Some (74 / 100)) None (Num 98) (Num 98)
     (Text "MELAS") (Text "serum") (Text "ELISA");
   mkRow (Some "GDF-15") (Some (71 / 100)) None (Num 51) (Num 51)
     (Text "MELAS") (Text "serum") (Text "ELISA")].

(** Two studies with the estimate 0.5 and the sample sizes 10 and 20. *)
Definition scenario_equal : list row :=
  [mkRow (Some "GDF-15") (Some (5 / 10)) None (Num 5) (Num 5)
     (Text "MELAS") (Text "serum") (Text "ELISA");
   mkRow (Some "GDF-15") (Some (5 / 10)) None (Num 10) (Num 10)
     (Text "MELAS") (Text "serum") (Text "ELISA")].

(** The table has the five columns that [calculate_pooled_estimates]
    indexes once the two metrics are pooled. *)
Definition indexed_columns (data : list row) : Prop :=
  Forall (fun r => is_text_absent (conditions r) = false
                   /\ is_text_absent (biomaterial r) = false
                   /\ is_text_absent (analytical_method r) = false
                   /\ is_absent (n_patients r) = false
                   /\ is_absent (n_controls r) = false) data.

(** Modelled from the spec: the effective sample size of a measurement,
    "total patients + controls", read off the two cells of the row.  A count
    the row does not have adds nothing; a count that is not a number leaves
    the row without a sample size. *)
Definition count_of (c : cell) : Z :=
  match c with Num n => n | _ => 0%Z end.

Definition effective_sample_size (r : row) : option Z :=
  match n_patients r, n_controls r with
  | NaN, _ => None
  | _, NaN => None
  | p, c => Some (count_of p + count_of c)%Z
  end.



(** ** [AutomatedMetaAnalysis]: quality, recommendations and the summary table *)

(** [np.mean] of a list; [None] is the NaN numpy gives for an empty one. *)
Definition np_mean (a : list R) : option R :=
  match a with
  | [] => None
  | _ => Some (np.sum a / INR (length a))
  end.

(** [result.get('sensitivity_heterogeneity', 0)] and its twins for the
    pooled estimates. *)
Definition sensitivity_heterogeneity (r : pooled_result) : R :=
  match sensitivity r with Some s => heterogeneity s | None => 0 end.

Definition specificity_heterogeneity (r : pooled_result) : R :=
  match specificity r with Some s => heterogeneity s | None => 0 end.

Definition pooled_or_0 (m : option metric_pool) : R :=
  match m with Some s => pooled s | None => 0 end.

Inductive quality_rating : Type :=
| High
| Moderate
| Low.

Record quality : Type := mkQuality {
  total_studies_included : nat;
  average_heterogeneity : option R;
  rating : quality_rating
}.

(** [assess_overall_quality].  A comparison with NaN is false, so the
    average of no result at all is rated ['Low']. *)
Definition assess_overall_quality (results : gmap string pooled_result)
  : quality :=
  let values := map snd (map_to_list results) in
  let total_studies := fold_left Nat.add (map n_studies values) 0%nat in
  let avg_heterogeneity := np_mean (map sensitivity_heterogeneity values) in
  mkQuality total_studies avg_heterogeneity
    match avg_heterogeneity with
    | Some avg =>
        if Rlt_dec avg 50 then High
        else if Rlt_dec avg 75 then Moderate else Low
    | None => Low
    end.

Record recommendation : Type := mkRecommendation {
  category : string;
  recommendation_text : string;
  evidence_level : string
}.

(** The truth value of a float: zero is false. *)
Definition truthy (x : R) : bool :=
  if Req_dec_T x 0 then false else true.

(** The list [best_biomarkers] of [generate_recommendations]; [items] are
    the items of [self.results] in the order of the dictionary. *)
Definition best_biomarkers (items : list (string * pooled_result))
  : list (string * R * R) :=
  flat_map (fun item =>
              let sens := pooled_or_0 (sensitivity (snd item)) in
              let spec := pooled_or_0 (specificity (snd item)) in
              if truthy sens && truthy spec then
                if Rlt_dec 70 sens then
                  if Rlt_dec 80 spec then [(fst item, sens, spec)] else []
                else []
              else []) items.

(** The list [high_het_biomarkers]. *)
Definition high_het_biomarkers (items : list (string * pooled_result))
  : list string :=
  flat_map (fun item =>
              if Rlt_dec 75 (sensitivity_heterogeneity (snd item))
              then [fst item] else []) items.

(** [generate_recommendations] *)
Definition generate_recommendations (items : list (string * pooled_result))
  : list recommendation :=
  let best := best_biomarkers items in
  let clinical :=
    match best with
    | [] => []
    | _ =>
        [mkRecommendation "Clinical Implementation"
           ("Consider clinical implementation of "
            +:+ String.concat ", " (map (fun b => fst (fst b)) (take 3 best))
            +:+ " as first-line biomarkers")
           "Strong"]
    end in
  let high := high_het_biomarkers items in
  let research :=
    match high with
    | [] => []
    | _ =>
        [mkRecommendation "Research Priority"
           ("Further research needed for " +:+ String.concat ", " high
            +:+ " due to high heterogeneity")
           "Moderate"]
    end in
  clinical ++ research.

(** A row of the summary table of [generate_meta_analysis_report], without
    the name of the biomarker and the two totals.  A cell that holds a
    formatted number is modelled by the number, a cell that holds the text
    ['NR'] by [None]. *)
Record summary_row : Type := mkSummaryRow {
  sr_n_studies : nat;
  sr_pooled_sensitivity : option R;
  sr_sensitivity_ci : option (R * R);
  sr_pooled_specificity : option R;
  sr_specificity_ci : option (R * R);
  sr_sensitivity_i2 : R;
  sr_specificity_i2 : R;
  sr_dor : option R
}.

(** [f(x) if result.get(key) else 'NR']: a missing key and the number 0 are
    both false. *)
Definition if_truthy {A : Type} (x : option R) (cell : A) : option A :=
  match x with
  | Some v => if truthy v then Some cell else None
  | None => None
  end.

Definition summary_row_of (r : pooled_result) : summary_row :=
  let sens := sensitivity r in
  let spec := specificity r in
  mkSummaryRow (n_studies r)
    (if_truthy (pooled <$> sens) (pooled_or_0 sens))
    (if_truthy (ci_lower <$> sens)
       (match sens with
        | Some s => (ci_lower s, ci_upper s)
        | None => (0, 0)
        end))
    (if_truthy (pooled <$> spec) (pooled_or_0 spec))
    (if_truthy (ci_lower <$> spec)
       (match spec with
        | Some s => (ci_lower s, ci_upper s)
        | None => (0, 0)
        end))
    (sensitivity_heterogeneity r)
    (specificity_heterogeneity r)
    (match diagnostic_odds_ratio r with
     | Some (Some d) => if truthy d then Some d else None
     | _ => None
     end).

(** ** [SystematicReviewAutomation]: the meta-analysis of the framework *)

Module Framework.

(** The entries of [self.config] the meta-analysis reads. *)
Record config : Type := mkConfig {
  min_studies_for_meta : nat;
  confidence_level : R
}.

Definition default_config : config := mkConfig 2 (95 / 100).

(** What one pooling adds to the result: the framework does not keep the
    standard error. *)
Record metric : Type := mkMetric {
  fm_pooled : R;
  fm_ci_lower : R;
  fm_ci_upper : R;
  fm_heterogeneity : R
}.

Record result : Type := mkResult {
  fr_n_studies : nat;
  fr_sensitivity : option metric;
  fr_specificity : option metric
}.

Section Analysis.

Variable norm_ppf : R -> R.
Variable cfg : config.

(** The body of [if len(sens_data) >= 2:] in [calculate_meta_analysis].
    [calculate_standard_error] and [calculate_confidence_interval] have the
    bodies of their namesakes in [AutomatedMetaAnalysis], the latter with the
    configured confidence level. *)
Definition pool_metric (values weights : list R) : py metric :=
  pooled_est ← np.average values weights;
  se ← calculate_standard_error values weights;
  let ci := calculate_confidence_interval norm_ppf pooled_est se
              (confidence_level cfg) in
  het ← calculate_heterogeneity_framework values weights;
  mret (mkMetric pooled_est (fst ci) (snd ci) het).

Definition pool_column (col : row -> option R) (data : list row)
  : py (option metric) :=
  let col_data := reporting col data in
  if (2 <=? length col_data)%nat then
    r ← pool_metric (column_values col col_data)
          (calculate_weights_framework col_data);
    mret (Some r)
  else mret None.

(** [calculate_meta_analysis]; the columns [sensitivity] and [specificity]
    of the framework's table are the fields [sensitivity_mean] and
    [specificity_mean] of [row]. *)
Definition calculate_meta_analysis (data : list row) : py result :=
  sens ← pool_column sensitivity_mean data;
  spec ← pool_column specificity_mean data;
  mret (mkResult (length data) sens spec).

(** The loop of [perform_automated_meta_analysis]. *)
Fixpoint analyse_biomarkers (perf_df : list row) (biomarkers : list string)
    (meta_results : gmap string result) : py (gmap string result) :=
  match biomarkers with
  | [] => mret meta_results
  | biomarker :: rest =>
      let valid_data := valid_rows (rows_of_biomarker perf_df biomarker) in
      if (min_studies_for_meta cfg <=? length valid_data)%nat then
        meta_result ← calculate_meta_analysis valid_data;
        analyse_biomarkers perf_df rest (<[biomarker := meta_result]> meta_results)
      else analyse_biomarkers perf_df rest meta_results
  end.

(** [perform_automated_meta_analysis].  A data frame built from an empty
    list has no columns, so indexing it by ['biomarker_name'] raises
    [KeyError]. *)
Definition perform_automated_meta_analysis (performance_data : list row)
    (meta_results : gmap string result) : py (gmap string result) :=
  match performance_data with
  | [] => Raise KeyError
  | _ =>
      analyse_biomarkers performance_data
        (unique (omap biomarker_name performance_data)) meta_results
  end.

End Analysis.

End Framework.

(** ** [RealDataMetaAnalysis]: the studies the script carries *)

(** [load_real_study_data]: biomarker, the 2x2 table (tp, fp, fn, tn) and
    the numbers of patients and controls of every study, in the order of
    the source. *)
Definition load_real_study_data : list RealData.study :=
  [RealData.mkStudy "FGF-21" 44 0 23 67 67 67;
   RealData.mkStudy "FGF-21" 52 13 24 70 76 83;
   RealData.mkStudy "FGF-21" 70 15 26 85 96 100;
   RealData.mkStudy "FGF-21" 36 8 15 43 51 51;
   RealData.mkStudy "FGF-21" 32 11 13 44 45 55;
   RealData.mkStudy "GDF-15" 56 10 14 60 70 70;
   RealData.mkStudy "GDF-15" 71 10 25 90 96 100;
   RealData.mkStudy "GDF-15" 36 7 15 44 51 51;
   RealData.mkStudy "GDF-15" 34 7 8 41 42 48;
   RealData.mkStudy "GDF-15" 30 6 8 36 38 42;
   RealData.mkStudy "GDF-15" 61 12 15 71 76 83;
   RealData.mkStudy "GDF-15" 38 8 7 47 45 55;
   RealData.mkStudy "Lactate" 68 8 45 37 113 45;
   RealData.mkStudy "Lactate" 62 13 27 54 89 67;
   RealData.mkStudy "Lactate" 78 18 78 71 156 89;
   RealData.mkStudy "Lactate" 47 9 20 36 67 45].

(** The counts of a 2x2 table are not negative. *)
Definition counts_nonneg (s : RealData.study) : Prop :=
  (0 <= RealData.tp s)%Z /\ (0 <= RealData.fp s)%Z /\
  (0 <= RealData.fn s)%Z /\ (0 <= RealData.tn s)%Z.

(** What the framework keeps of a pooled metric of [AutomatedMetaAnalysis]:
    everything but the standard error. *)
Definition framework_metric_of (s : metric_pool) : Framework.metric :=
  Framework.mkMetric (pooled s) (ci_lower s) (ci_upper s) (heterogeneity s).

(** * Properties *)

(** ** Sums, products and the weighted mean *)

Lemma fold_left_Rplus_total (l : list R) (a : R) :
  fold_left Rplus l a = a + total l.
Proof.
  revert a; induction l as [|x l IH]; intros a; simpl.
  - lra.
  - rewrite IH. lra.
Qed.

Lemma np_sum_total (l : list R) : np.sum l = total l.
Proof. unfold np.sum. rewrite fold_left_Rplus_total. lra. Qed.

Lemma multiply_measurements (values weights : list R) :
  np.multiply values weights
  = map (fun m => estimate m * weight m) (measurements values weights).
Proof.
  revert weights; induction values as [|v values IH]; intros [|w weights];
    simpl; try reflexivity.
  now rewrite IH.
Qed.

Lemma weights_measurements (values weights : list R) :
  length values = length weights ->
  map weight (measurements values weights) = weights.
Proof.
  revert weights; induction values as [|v values IH]; intros [|w weights];
    simpl; intros Hlen; try reflexivity; try discriminate.
  f_equal. apply IH. lia.
Qed.

Lemma multiply_sq_dev_measurements (values weights : list R) (m : R) :
  length values = length weights ->
  np.multiply weights (sq_dev values m)
  = map (fun x => weight x * ((estimate x - m) * (estimate x - m)))
      (measurements values weights).
Proof.
  revert weights; induction values as [|v values IH]; intros [|w weights];
    simpl; intros Hlen; try reflexivity; try discriminate.
  unfold sq at 1. f_equal. apply IH. lia.
Qed.

(** [np.average] on arrays of one length whose weights do not sum to zero is
    the weighted mean. *)
Lemma average_weighted_mean (values weights : list R) :
  length values = length weights ->
  total weights <> 0 ->
  np.average values weights = Ret (weighted_mean (measurements values weights)).
Proof.
  intros Hlen Hsum. unfold np.average.
  rewrite Hlen, Nat.eqb_refl. cbv zeta.
  destruct (Req_dec_T (np.sum weights) 0) as [H0|_].
  - rewrite np_sum_total in H0. contradiction.
  - unfold weighted_mean.
    rewrite !np_sum_total, multiply_measurements, weights_measurements by easy.
    reflexivity.
Qed.

Lemma average_zero_weights (values weights : list R) :
  length values = length weights ->
  total weights = 0 ->
  np.average values weights = Raise ZeroDivisionError.
Proof.
  intros Hlen Hsum. unfold np.average.
  rewrite Hlen, Nat.eqb_refl. cbv zeta. rewrite np_sum_total.
  destruct (Req_dec_T (total weights) 0) as [_|Hne];
    [reflexivity | contradiction].
Qed.

(** ** Weights *)

Lemma row_weight_pos (r : row) : (1 <= row_weight r)%Z.
Proof.
  unfold row_weight. destruct (n_total r) as [n|]; [|lia].
  destruct (Z.ltb_spec 0 n); lia.
Qed.

Lemma row_weight_framework_eq (r : row) :
  row_weight_framework r = row_weight r.
Proof.
  unfold row_weight_framework, row_weight.
  destruct (n_total r) as [n|]; [|reflexivity].
  destruct (Z.ltb_spec 1 n), (Z.ltb_spec 0 n); lia.
Qed.

Lemma calculate_weights_framework_eq (data : list row) :
  calculate_weights_framework data = calculate_weights data.
Proof.
  unfold calculate_weights_framework, calculate_weights.
  apply map_ext. intros r. now rewrite row_weight_framework_eq.
Qed.

Lemma length_calculate_weights (data : list row) :
  length (calculate_weights data) = length data.
Proof. unfold calculate_weights. apply length_map. Qed.

Lemma calculate_weights_ge_1 (data : list row) :
  Forall (fun w => 1 <= w) (calculate_weights data).
Proof.
  unfold calculate_weights. apply Forall_map, Forall_forall.
  intros r _. apply IZR_le, row_weight_pos.
Qed.

Lemma total_ge_length (l : list R) :
  Forall (fun w => 1 <= w) l -> INR (length l) <= total l.
Proof.
  induction 1 as [|w l Hw _ IH].
  - simpl. lra.
  - change (length (w :: l)) with (S (length l)). rewrite S_INR. simpl. lra.
Qed.

Lemma total_calculate_weights_pos (data : list row) :
  data <> [] -> 0 < total (calculate_weights data).
Proof.
  intros Hne.
  pose proof (total_ge_length _ (calculate_weights_ge_1 data)) as H.
  rewrite length_calculate_weights in H.
  destruct data as [|r data]; [contradiction|].
  change (length (r :: data)) with (S (length data)) in H.
  rewrite S_INR in H. pose proof (pos_INR (length data)). lra.
Qed.

Lemma lookup_map {A B : Type} (f : A -> B) (l : list A) (i : nat) :
  map f l !! i = f <$> (l !! i).
Proof. change (map f l) with (f <$> l). apply list_lookup_fmap. Qed.

Lemma n_total_effective_sample_size (r : row) :
  n_total r = effective_sample_size r.
Proof.
  unfold n_total, effective_sample_size, get_or_0, count_of.
  destruct (n_patients r), (n_controls r); reflexivity.
Qed.

(** C6.  [calculate_weights] returns one weight per row, in the order of the
    rows.  The weight of row [i] is the row's effective sample size, the sum
    of its cells [n_patients] and [n_controls], when that is a positive
    number, and the fallback 1 otherwise; in particular a row with [p]
    patients and [c] controls weighs [p + c] when this is positive.  The
    weight is strictly positive in both cases.  The sibling of
    [automation_framework_future_use.py] computes the same weights. *)
Theorem calculate_weights_positive_in_order
    (data : list row) (i : nat) (r : row) (Hrow : data !! i = Some r) :
  length (calculate_weights data) = length data /\
  (exists w : R,
     calculate_weights data !! i = Some w /\
     ((is_positive_number (effective_sample_size r)
       /\ Some w = IZR <$> effective_sample_size r) \/
      (~ is_positive_number (effective_sample_size r) /\ w = 1)) /\
     (forall p c : Z,
        n_patients r = Num p -> n_controls r = Num c ->
        w = if (0 <? p + c)%Z then IZR (p + c) else 1) /\
     0 < w) /\
  calculate_weights_framework data = calculate_weights data.
Proof.
  split; [apply length_calculate_weights|].
  split; [|apply calculate_weights_framework_eq].
  exists (IZR (row_weight r)). split.
  - unfold calculate_weights. rewrite lookup_map, Hrow. reflexivity.
  - split; [|split].
    + unfold row_weight, is_positive_number.
      rewrite n_total_effective_sample_size.
      destruct (effective_sample_size r) as [n|].
      * destruct (Z.ltb_spec 0 n) as [Hpos|Hnpos].
        -- left. split; [exists n; split; [reflexivity | exact Hpos]|].
           reflexivity.
        -- right. split; [|reflexivity].
           intros (k & Hk & Hk0). injection Hk as ->. lia.
      * right. split; [|reflexivity].
        intros (k & Hk & _). discriminate.
    + intros p c Hp Hc. unfold row_weight, n_total.
      rewrite Hp, Hc. cbn [get_or_0].
      destruct (0 <? p + c)%Z; reflexivity.
    + apply IZR_lt. pose proof (row_weight_pos r). lia.
Qed.

Lemma calculate_weights_positive_in_order_witness :
  let r0 := mkRow (Some "Lactate") (Some 80) None (Num 70) (Num 70)
              (Text "MELAS") (Text "plasma") TextMissing in
  let r1 := mkRow (Some "Lactate") (Some 74) None NaN (Num 5)
              (Text "MELAS") (Text "plasma") TextMissing in
  let data := [r0; r1] in
  data !! 0%nat = Some r0 /\
  (length (calculate_weights data) = length data /\
   (exists w : R,
      calculate_weights data !! 0%nat = Some w /\
      ((is_positive_number (effective_sample_size r0)
        /\ Some w = IZR <$> effective_sample_size r0) \/
       (~ is_positive_number (effective_sample_size r0) /\ w = 1)) /\
      (forall p c : Z,
         n_patients r0 = Num p -> n_controls r0 = Num c ->
         w = if (0 <? p + c)%Z then IZR (p + c) else 1) /\
      0 < w) /\
   calculate_weights_framework data = calculate_weights data) /\
  calculate_weights data = [140; 1].
Proof.
  intros r0 r1 data. split; [reflexivity|]. split.
  - apply (calculate_weights_positive_in_order data 0 r0). reflexivity.
  - reflexivity.
Defined.

(** ** Diagnostic odds ratios *)

Lemma diagnostic_odds_ratio_none (sensitivity specificity : R) :
  calculate_diagnostic_odds_ratio sensitivity specificity = None <->
  sensitivity = 0 \/ sensitivity = 100 \/ specificity = 0 \/ specificity = 100.
Proof.
  unfold calculate_diagnostic_odds_ratio.
  destruct (Req_dec_T sensitivity 0) as [Hs0|Hs0]; [tauto|].
  destruct (Req_dec_T sensitivity 100) as [Hs1|Hs1]; [tauto|].
  destruct (Req_dec_T specificity 0) as [Hp0|Hp0]; [tauto|].
  destruct (Req_dec_T specificity 100) as [Hp1|Hp1]; [tauto|].
  split; [discriminate | tauto].
Qed.

Lemma diagnostic_odds_ratio_some (sensitivity specificity : R) :
  sensitivity <> 0 -> sensitivity <> 100 ->
  specificity <> 0 -> specificity <> 100 ->
  calculate_diagnostic_odds_ratio sensitivity specificity
  = Some ((sensitivity / 100 / (1 - sensitivity / 100))
          / ((1 - specificity / 100) / (specificity / 100))).
Proof.
  intros Hs0 Hs1 Hp0 Hp1. unfold calculate_diagnostic_odds_ratio.
  destruct (Req_dec_T sensitivity 0); [contradiction|].
  destruct (Req_dec_T sensitivity 100); [contradiction|].
  destruct (Req_dec_T specificity 0); [contradiction|].
  destruct (Req_dec_T specificity 100); [contradiction|].
  reflexivity.
Qed.

(** C7.  [calculate_diagnostic_odds_ratio] returns [None] exactly when the
    sensitivity or the specificity is at a boundary: 0 or 100 on the
    percentage scale it is called with, that is 0 or 1 for the proportions
    [sens] and [spec] it derives.  Away from the boundaries it returns
    [(sens / (1 - sens)) / ((1 - spec) / spec)], and for strictly interior
    inputs no divisor of that formula is zero. *)
Theorem diagnostic_odds_ratio_boundary (sensitivity specificity : R) :
  let sens := sensitivity / 100 in
  let spec := specificity / 100 in
  (calculate_diagnostic_odds_ratio sensitivity specificity = None <->
   sensitivity = 0 \/ sensitivity = 100 \/
   specificity = 0 \/ specificity = 100) /\
  (calculate_diagnostic_odds_ratio sensitivity specificity = None <->
   sens = 0 \/ sens = 1 \/ spec = 0 \/ spec = 1) /\
  (calculate_diagnostic_odds_ratio sensitivity specificity <> None ->
   calculate_diagnostic_odds_ratio sensitivity specificity
   = Some ((sens / (1 - sens)) / ((1 - spec) / spec))) /\
  (0 < sens < 1 -> 0 < spec < 1 ->
   calculate_diagnostic_odds_ratio sensitivity specificity
   = Some ((sens / (1 - sens)) / ((1 - spec) / spec)) /\
   1 - sens <> 0 /\ spec <> 0 /\ (1 - spec) / spec <> 0).
Proof.
  intros sens spec.
  pose proof (diagnostic_odds_ratio_none sensitivity specificity) as Hnone.
  split; [exact Hnone|]. split; [|split].
  - rewrite Hnone. subst sens spec.
    split; (intros [H|[H|[H|H]]];
            [left | right; left | right; right; left | right; right; right];
            lra).
  - intros Hsome. apply diagnostic_odds_ratio_some.
    all: intros Heq; apply Hsome, Hnone; tauto.
  - intros Hsens Hspec. subst sens spec.
    split; [apply diagnostic_odds_ratio_some; lra|].
    split; [lra|]. split; [lra|].
    apply Rmult_integral_contrapositive_currified;
      [lra | apply Rinv_neq_0_compat; lra].
Qed.

Lemma diagnostic_odds_ratio_boundary_witness :
  0 < 80 / 100 < 1 /\ 0 < 90 / 100 < 1 /\
  calculate_diagnostic_odds_ratio 80 90
  = Some ((80 / 100 / (1 - 80 / 100)) / ((1 - 90 / 100) / (90 / 100))).
Proof.
  split; [lra|]. split; [lra|].
  destruct (diagnostic_odds_ratio_boundary 80 90) as (_ & _ & _ & Hinterior).
  apply Hinterior; lra.
Defined.

(** C8.  For non-negative counts the odds ratio of a 2x2 table computed by
    [calculate_study_metrics] is [(tp * tn) / (fp * fn)] when [fp * fn] is
    not zero and [float('inf')] exactly when [fp * fn = 0]; for the table
    (56, 10, 14, 60) it is 24. *)
Theorem study_dor_table (s : RealData.study)
    (Htp : (0 <= RealData.tp s)%Z) (Hfp : (0 <= RealData.fp s)%Z)
    (Hfn : (0 <= RealData.fn s)%Z) (Htn : (0 <= RealData.tn s)%Z) :
  let dor := RealData.sm_dor (RealData.calculate_study_metrics s) in
  ((RealData.fp s * RealData.fn s <> 0)%Z /\
   dor = RealData.Fin (IZR (RealData.tp s) * IZR (RealData.tn s)
                       / (IZR (RealData.fp s) * IZR (RealData.fn s))) \/
   (RealData.fp s * RealData.fn s = 0)%Z /\ dor = RealData.Inf) /\
  (dor = RealData.Inf <-> (RealData.fp s * RealData.fn s = 0)%Z) /\
  RealData.study_dor 56 10 14 60 = RealData.Fin 24.
Proof.
  intros dor. subst dor. simpl. unfold RealData.study_dor.
  assert (Hzero : (RealData.fp s * RealData.fn s = 0)%Z <->
                  (RealData.fp s = 0 \/ RealData.fn s = 0)%Z)
    by apply Z.mul_eq_0.
  split; [|split].
  - destruct (Z.ltb_spec 0 (RealData.fp s)) as [Hp|Hp];
      destruct (Z.ltb_spec 0 (RealData.fn s)) as [Hn|Hn]; simpl.
    + left. split; [rewrite Hzero; lia|]. now rewrite !mult_IZR.
    + right. split; [rewrite Hzero; lia | reflexivity].
    + right. split; [rewrite Hzero; lia | reflexivity].
    + right. split; [rewrite Hzero; lia | reflexivity].
  - rewrite Hzero.
    destruct (Z.ltb_spec 0 (RealData.fp s)) as [Hp|Hp];
      destruct (Z.ltb_spec 0 (RealData.fn s)) as [Hn|Hn]; simpl;
      split; intros H; try reflexivity; try discriminate;
      first [lia | exfalso; lia].
  - change ((0 <? 10)%Z && (0 <? 14)%Z) with true. cbv iota.
    change (56 * 60)%Z with 3360%Z. change (10 * 14)%Z with 140%Z.
    f_equal. lra.
Qed.

Lemma study_dor_table_witness :
  let s := RealData.mkStudy "GDF-15" 56 10 14 60 70 70 in
  (0 <= RealData.tp s)%Z /\ (0 <= RealData.fp s)%Z /\
  (0 <= RealData.fn s)%Z /\ (0 <= RealData.tn s)%Z /\
  (RealData.sm_dor (RealData.calculate_study_metrics s) = RealData.Inf
   <-> (RealData.fp s * RealData.fn s = 0)%Z).
Proof.
  intros s. repeat (split; [simpl; lia|]).
  apply (study_dor_table s); simpl; lia.
Defined.

(** ** The pooling pipeline returns, and what it returns *)

Lemma multiply_comm (a b : list R) : np.multiply a b = np.multiply b a.
Proof.
  revert b; induction a as [|x a IH]; intros [|y b]; simpl; try reflexivity.
  rewrite IH. f_equal. lra.
Qed.

Lemma length_sq_dev (values : list R) (m : R) :
  length (sq_dev values m) = length values.
Proof. unfold sq_dev. apply length_map. Qed.

Lemma length_measurements (values weights : list R) :
  length values = length weights ->
  length (measurements values weights) = length values.
Proof.
  revert weights; induction values as [|v values IH]; intros [|w weights];
    simpl; intros Hlen; try reflexivity; try discriminate.
  f_equal. apply IH. lia.
Qed.

(** The weighted variance of [calculate_standard_error] is Q / Σ(weight). *)
Lemma average_sq_dev (values weights : list R) (m : R) :
  length values = length weights ->
  total weights <> 0 ->
  np.average (sq_dev values m) weights
  = Ret (q_statistic (measurements values weights) m / total weights).
Proof.
  intros Hlen Hsum. unfold np.average.
  rewrite length_sq_dev, Hlen, Nat.eqb_refl. cbv zeta.
  destruct (Req_dec_T (np.sum weights) 0) as [H0|_].
  - rewrite np_sum_total in H0. contradiction.
  - rewrite !np_sum_total, multiply_comm, multiply_sq_dev_measurements by easy.
    reflexivity.
Qed.

(** The code's I² in the words of step 8 of the specification. *)
Lemma clip_i_squared (q df : R) :
  Rmin 100 (Rmax 0 (if Rle_dec q df then 0 else ((q - df) / q) * 100))
  = i2_of q df.
Proof.
  unfold i2_of, clip. destruct (Rle_dec q df); [|reflexivity].
  rewrite Rmax_left by lra. apply Rmin_right. lra.
Qed.

Section Pipeline.

Variable norm_ppf : R -> R.

Variables values weights : list R.
Hypothesis Hlen : length values = length weights.
Hypothesis Hsum : total weights <> 0.
Hypothesis Hsize : (2 <= length values)%nat.

Let ms := measurements values weights.
Let p := weighted_mean ms.

Lemma standard_error_ret :
  calculate_standard_error values weights
  = Ret (sqrt (q_statistic ms p / total weights / INR (length values))).
Proof using Hlen Hsum Hsize.
  unfold calculate_standard_error.
  destruct (Nat.ltb_spec (length values) 2) as [Hlt|_]; [lia|].
  rewrite average_weighted_mean by assumption. cbn.
  rewrite average_sq_dev by assumption. reflexivity.
Qed.

Lemma heterogeneity_ret :
  calculate_heterogeneity values weights
  = Ret (i2_of (q_statistic ms p) (INR (length values - 1))).
Proof using Hlen Hsum Hsize.
  unfold calculate_heterogeneity.
  destruct (Nat.ltb_spec (length values) 2) as [Hlt|_]; [lia|].
  rewrite average_weighted_mean by assumption. cbn.
  rewrite np_sum_total, multiply_sq_dev_measurements by assumption.
  fold ms p (q_statistic ms p). now rewrite clip_i_squared.
Qed.

Lemma heterogeneity_framework_ret :
  calculate_heterogeneity_framework values weights
  = Ret (i2_of (q_statistic ms p) (INR (length values - 1))).
Proof using Hlen Hsum Hsize.
  unfold calculate_heterogeneity_framework.
  destruct (Nat.ltb_spec (length values) 2) as [Hlt|_]; [lia|].
  rewrite average_weighted_mean by assumption. cbn.
  rewrite np_sum_total, multiply_sq_dev_measurements by assumption.
  fold ms p (q_statistic ms p). unfold i2_of, clip.
  destruct (Rle_dec (q_statistic ms p) (INR (length values - 1))) as [Hle|Hgt];
    [reflexivity|].
  f_equal. f_equal. symmetry. apply Rmax_right.
  assert (Hdf : 0 <= INR (length values - 1)) by apply pos_INR.
  apply Rnot_le_lt in Hgt.
  apply Rmult_le_pos; [|lra].
  apply Rmult_le_pos; [lra|]. left. apply Rinv_0_lt_compat. lra.
Qed.

Lemma pool_metric_ret :
  pool_metric norm_ppf values weights
  = Ret (let se := sqrt (q_statistic ms p / total weights
                         / INR (length values)) in
         let ci := calculate_confidence_interval norm_ppf p se (95 / 100) in
         mkMetricPool p se (fst ci) (snd ci)
           (i2_of (q_statistic ms p) (INR (length values - 1)))).
Proof using Hlen Hsum Hsize.
  unfold pool_metric.
  rewrite average_weighted_mean by assumption. cbn.
  rewrite standard_error_ret. cbn.
  rewrite heterogeneity_ret. reflexivity.
Qed.

End Pipeline.

(** ** Pooling one column of a table *)

Lemma length_column_values (col : row -> option R) (data : list row) :
  length (column_values col (reporting col data))
  = length (reporting col data).
Proof.
  unfold column_values, reporting.
  induction data as [|r data IH]; [reflexivity|].
  simpl. destruct (col r) as [v|] eqn:Hcol; simpl.
  - rewrite Hcol. simpl. now f_equal.
  - exact IH.
Qed.

Lemma length_column_measurements (col : row -> option R) (data : list row) :
  length (column_measurements col data) = length (reporting col data).
Proof.
  unfold column_measurements.
  rewrite length_measurements, length_column_values; [reflexivity|].
  now rewrite length_column_values, length_calculate_weights.
Qed.

Lemma total_weights_column_pos (col : row -> option R) (data : list row) :
  (2 <= length (reporting col data))%nat ->
  0 < total (calculate_weights (reporting col data)).
Proof.
  intros Hsize. apply total_calculate_weights_pos.
  intros Hnil. rewrite Hnil in Hsize. simpl in Hsize. lia.
Qed.

Lemma weights_column_measurements (col : row -> option R) (data : list row) :
  map weight (column_measurements col data)
  = calculate_weights (reporting col data).
Proof.
  unfold column_measurements. apply weights_measurements.
  now rewrite length_column_values, length_calculate_weights.
Qed.

(** With fewer than two reporting rows nothing is pooled. *)
Lemma pool_column_skip (norm_ppf : R -> R) (col : row -> option R)
    (data : list row) :
  (length (reporting col data) < 2)%nat ->
  pool_column norm_ppf col data = Ret None.
Proof.
  intros Hfew. unfold pool_column. cbv zeta.
  destruct (Nat.leb_spec 2 (length (reporting col data))); [lia|reflexivity].
Qed.

(** With two or more the pooling returns, and this is what it returns. *)
Lemma pool_column_ret (norm_ppf : R -> R) (col : row -> option R)
    (data : list row) :
  (2 <= length (reporting col data))%nat ->
  let ms := column_measurements col data in
  let n := length (reporting col data) in
  let p := weighted_mean ms in
  let se := sqrt (q_statistic ms p / total (map weight ms) / INR n) in
  let ci := calculate_confidence_interval norm_ppf p se (95 / 100) in
  pool_column norm_ppf col data
  = Ret (Some (mkMetricPool p se (fst ci) (snd ci)
                 (i2_of (q_statistic ms p) (INR (n - 1))))).
Proof.
  intros Hsize ms n p se ci. unfold pool_column. cbv zeta.
  destruct (Nat.leb_spec 2 (length (reporting col data))); [|lia].
  pose proof (total_weights_column_pos col data Hsize) as Hpos.
  rewrite pool_metric_ret.
  - cbn. subst ci se p ms n.
    rewrite weights_column_measurements, length_column_values. reflexivity.
  - now rewrite length_column_values, length_calculate_weights.
  - lra.
  - now rewrite length_column_values.
Qed.

(** ** Pooling the studies of one biomarker *)

Lemma length_study_weights (studies : list RealData.study) :
  length (study_weights studies) = length studies.
Proof. unfold study_weights. now rewrite !length_map. Qed.

Lemma perform_skip (studies_data : list RealData.study) (name : string) :
  (length (studies_of studies_data name) < 2)%nat ->
  RealData.perform_meta_analysis_biomarker studies_data name = Ret None.
Proof.
  intros Hfew. unfold RealData.perform_meta_analysis_biomarker. cbv zeta.
  fold (studies_of studies_data name).
  destruct (Nat.ltb_spec (length (studies_of studies_data name)) 2);
    [reflexivity | lia].
Qed.

(** Two or more studies without a single subject: [np.average] raises. *)
Lemma perform_raise (studies_data : list RealData.study) (name : string) :
  (2 <= length (studies_of studies_data name))%nat ->
  total (study_weights (studies_of studies_data name)) = 0 ->
  RealData.perform_meta_analysis_biomarker studies_data name
  = Raise ZeroDivisionError.
Proof.
  intros Hsize Hzero. unfold RealData.perform_meta_analysis_biomarker.
  cbv zeta. fold (studies_of studies_data name).
  destruct (Nat.ltb_spec (length (studies_of studies_data name)) 2); [lia|].
  fold (study_weights (studies_of studies_data name)).
  rewrite (average_zero_weights
             (map RealData.sm_sensitivity
                (map RealData.calculate_study_metrics
                   (studies_of studies_data name)))).
  - reflexivity.
  - now rewrite !length_map, length_study_weights.
  - exact Hzero.
Qed.

Lemma perform_ret (studies_data : list RealData.study) (name : string) :
  (2 <= length (studies_of studies_data name))%nat ->
  total (study_weights (studies_of studies_data name)) <> 0 ->
  exists r,
    RealData.perform_meta_analysis_biomarker studies_data name = Ret (Some r) /\
    RealData.mr_n_studies r = length (studies_of studies_data name) /\
    RealData.pooled_sensitivity r
    = weighted_mean (study_measurements RealData.sm_sensitivity
                       (studies_of studies_data name)) /\
    RealData.pooled_specificity r
    = weighted_mean (study_measurements RealData.sm_specificity
                       (studies_of studies_data name)) /\
    RealData.sensitivity_ci r
    = RealData.confidence_interval (RealData.pooled_sensitivity r)
        (RealData.sensitivity_se r) /\
    RealData.specificity_ci r
    = RealData.confidence_interval (RealData.pooled_specificity r)
        (RealData.specificity_se r).
Proof.
  intros Hsize Hsum. unfold RealData.perform_meta_analysis_biomarker.
  cbv zeta. fold (studies_of studies_data name).
  destruct (Nat.ltb_spec (length (studies_of studies_data name)) 2); [lia|].
  fold (study_weights (studies_of studies_data name)).
  set (bs := studies_of studies_data name) in *.
  assert (Hlen : forall metric : RealData.study_metrics -> R,
             length (map metric (map RealData.calculate_study_metrics bs))
             = length (study_weights bs))
    by (intros metric; now rewrite !length_map, length_study_weights).
  rewrite (average_weighted_mean _ _ (Hlen RealData.sm_sensitivity) Hsum).
  cbn.
  rewrite (average_weighted_mean _ _ (Hlen RealData.sm_specificity) Hsum).
  cbn.
  rewrite (average_sq_dev _ _ _ (Hlen RealData.sm_sensitivity) Hsum). cbn.
  rewrite (average_sq_dev _ _ _ (Hlen RealData.sm_specificity) Hsum). cbn.
  eexists. split; [reflexivity|]. cbn.
  rewrite length_map. repeat split; reflexivity.
Qed.

(** ** The pooled estimate is the weighted mean *)

Lemma scenario_measurements :
  column_measurements sensitivity_mean scenario
  = [mkMeasurement (80 / 100) 140; mkMeasurement (74 / 100) 196;
     mkMeasurement (71 / 100) 102].
Proof. reflexivity. Qed.

Lemma scenario_weighted_mean :
  weighted_mean (column_measurements sensitivity_mean scenario)
  = 16473 / 21900.
Proof.
  rewrite scenario_measurements. unfold weighted_mean. simpl. field.
Qed.

Lemma scenario_pooled (norm_ppf : R -> R) (r : metric_pool) :
  pool_column norm_ppf sensitivity_mean scenario = Ret (Some r) ->
  pooled r = 16473 / 21900.
Proof.
  intros Hpool. rewrite pool_column_ret in Hpool by (simpl; lia).
  injection Hpool as <-. cbn [pooled]. apply scenario_weighted_mean.
Qed.

Lemma perform_some_inv (studies_data : list RealData.study) (name : string)
    (r : RealData.meta_result) :
  RealData.perform_meta_analysis_biomarker studies_data name = Ret (Some r) ->
  (2 <= length (studies_of studies_data name))%nat /\
  total (study_weights (studies_of studies_data name)) <> 0.
Proof.
  intros Hret. split.
  - destruct (Nat.lt_ge_cases (length (studies_of studies_data name)) 2)
      as [Hfew|Hsize]; [|exact Hsize].
    rewrite perform_skip in Hret by exact Hfew. discriminate.
  - intros Hzero.
    destruct (Nat.lt_ge_cases (length (studies_of studies_data name)) 2)
      as [Hfew|Hsize].
    + rewrite perform_skip in Hret by exact Hfew. discriminate.
    + rewrite perform_raise in Hret by assumption. discriminate.
Qed.

(** C2, the scenario as the specification states it: the pooled estimate of
    the estimates 0.80, 0.74, 0.71 with the weights 140, 196, 102 is
    329.46 / 438 = 0.7522, which is not 0.754 to three decimals. *)
Lemma scenario_pooled_estimate_is_not_0754 :
  ~ (exists (norm_ppf : R -> R) (r : metric_pool),
       pool_column norm_ppf sensitivity_mean scenario = Ret (Some r) /\
       Rabs (pooled r - 754 / 1000) <= 5 / 10000).
Proof.
  intros (norm_ppf & r & Hpool & Hnear).
  apply scenario_pooled in Hpool. rewrite Hpool in Hnear.
  unfold Rabs in Hnear. destruct (Rcase_abs _) in Hnear; lra.
Qed.

(** C2, amended.  For every table with at least two rows that report the
    column, pooling returns the weighted mean Σ(estimate·weight)/Σ(weight)
    of their measurements; so does the pooling of the studies of a biomarker
    in [RealDataMetaAnalysis] whenever it returns a result.  For the
    estimates 0.80, 0.74, 0.71 with the weights 140, 196, 102 the pooled
    estimate is 16473/21900, approximately 0.752. *)
Theorem pooled_estimate_is_weighted_mean
    (norm_ppf : R -> R) (col : row -> option R) (data : list row)
    (Hsize : (2 <= length (reporting col data))%nat) :
  (exists r : metric_pool,
     pool_column norm_ppf col data = Ret (Some r) /\
     pooled r = weighted_mean (column_measurements col data)) /\
  (forall (studies_data : list RealData.study) (name : string)
          (r : RealData.meta_result),
     RealData.perform_meta_analysis_biomarker studies_data name
     = Ret (Some r) ->
     RealData.pooled_sensitivity r
     = weighted_mean (study_measurements RealData.sm_sensitivity
                        (studies_of studies_data name)) /\
     RealData.pooled_specificity r
     = weighted_mean (study_measurements RealData.sm_specificity
                        (studies_of studies_data name))) /\
  (exists r : metric_pool,
     pool_column norm_ppf sensitivity_mean scenario = Ret (Some r) /\
     pooled r = 16473 / 21900 /\
     Rabs (pooled r - 752 / 1000) <= 5 / 10000).
Proof.
  split; [|split].
  - eexists. split; [apply pool_column_ret; exact Hsize | reflexivity].
  - intros studies_data name r Hret.
    destruct (perform_some_inv _ _ _ Hret) as [Hn Hsum].
    destruct (perform_ret studies_data name Hn Hsum)
      as (r' & Hret' & _ & Hsens & Hspec & _).
    rewrite Hret in Hret'. injection Hret' as ->. now split.
  - eexists. split; [apply pool_column_ret; simpl; lia|].
    cbn [pooled]. rewrite scenario_weighted_mean. split; [reflexivity|].
    unfold Rabs. destruct (Rcase_abs _); lra.
Qed.

Lemma pooled_estimate_is_weighted_mean_witness :
  (2 <= length (reporting sensitivity_mean scenario))%nat /\
  exists r : metric_pool,
    pool_column (fun _ => 196 / 100) sensitivity_mean scenario
    = Ret (Some r) /\
    pooled r = weighted_mean (column_measurements sensitivity_mean scenario).
Proof.
  split; [simpl; lia|].
  apply (pooled_estimate_is_weighted_mean (fun _ => 196 / 100)
           sensitivity_mean scenario).
  simpl; lia.
Defined.

(** ** The pooled estimate lies between the estimates *)

Lemma total_multiply_bounds (a b : R) (values weights : list R) :
  length values = length weights ->
  Forall (fun w => 0 <= w) weights ->
  Forall (fun v => a <= v <= b) values ->
  a * total weights <= total (np.multiply values weights) <= b * total weights.
Proof.
  revert weights; induction values as [|v values IH]; intros [|w weights];
    simpl; intros Hlen Hw Hv; try discriminate; try lra.
  apply Forall_cons in Hw as [Hw0 Hw]. apply Forall_cons in Hv as [Hv0 Hv].
  specialize (IH weights ltac:(lia) Hw Hv). nra.
Qed.

Lemma quotient_between (a b s w : R) :
  0 < w -> a * w <= s <= b * w -> a <= s / w <= b.
Proof.
  intros Hw [Ha Hb].
  assert (Hs : s / w * w = s) by (field; lra).
  split; apply Rmult_le_reg_r with w; lra.
Qed.

Lemma weighted_mean_bounds (a b : R) (values weights : list R) :
  length values = length weights ->
  Forall (fun w => 0 <= w) weights ->
  0 < total weights ->
  Forall (fun v => a <= v <= b) values ->
  a <= weighted_mean (measurements values weights) <= b.
Proof.
  intros Hlen Hw Hsum Hv. unfold weighted_mean.
  rewrite <- multiply_measurements, weights_measurements by exact Hlen.
  apply quotient_between; [exact Hsum|].
  apply total_multiply_bounds; assumption.
Qed.

Lemma fold_left_Rmin_le (l : list R) (x : R) :
  fold_left Rmin l x <= x /\ Forall (fun v => fold_left Rmin l x <= v) l.
Proof.
  revert x; induction l as [|y l IH]; intros x; simpl.
  - split; [lra | constructor].
  - destruct (IH (Rmin x y)) as [Hhd Htl].
    pose proof (Rmin_l x y). pose proof (Rmin_r x y).
    split; [lra|]. constructor; [lra | exact Htl].
Qed.

Lemma fold_left_Rmax_ge (l : list R) (x : R) :
  x <= fold_left Rmax l x /\ Forall (fun v => v <= fold_left Rmax l x) l.
Proof.
  revert x; induction l as [|y l IH]; intros x; simpl.
  - split; [lra | constructor].
  - destruct (IH (Rmax x y)) as [Hhd Htl].
    pose proof (Rmax_l x y). pose proof (Rmax_r x y).
    split; [lra|]. constructor; [lra | exact Htl].
Qed.

Lemma minimum_maximum_bound (d : R) (l : list R) :
  Forall (fun v => minimum d l <= v <= maximum d l) l.
Proof.
  destruct l as [|x l]; [constructor|]. simpl.
  destruct (fold_left_Rmin_le l x) as [Hmin Hmins].
  destruct (fold_left_Rmax_ge l x) as [Hmax Hmaxs].
  constructor; [lra|].
  rewrite Forall_forall in *. intros v Hv. split; auto.
Qed.

Lemma calculate_weights_nonneg (data : list row) :
  Forall (fun w => 0 <= w) (calculate_weights data).
Proof.
  eapply Forall_impl; [apply calculate_weights_ge_1|].
  simpl. intros w Hw. lra.
Qed.

(** C10, refuted as stated: in binary64 three studies with the estimate
    0.71 and the weights 140, 196 and 102 pool to 0.7100000000000001, which
    is above the greatest of the estimates. *)
Lemma pooled_estimate_above_maximum :
  F64.average [0.71; 0.71; 0.71]%float [140; 196; 102]%float
  = Ret 0.7100000000000001%float /\
  (0.71 <? 0.7100000000000001)%float = true.
Proof. split; vm_compute; reflexivity. Qed.

(** C10.  In exact arithmetic, with the strictly positive weights of
    [calculate_weights] the pooled estimate of at least two reporting rows
    lies between the least and the greatest of their estimates; when all
    estimates are within [0, scale_max], so is the pooled estimate before
    any clipping.  In binary64 the three studies of the scenario pool to
    0.7521917808219177, between 0.71 and 0.80, and the three studies with
    the estimate 0.71, which pool to a number above 0.71, stay within
    [0, 1]. *)
Theorem pooled_estimate_between_extremes
    (norm_ppf : R -> R) (col : row -> option R) (data : list row)
    (Hsize : (2 <= length (reporting col data))%nat) :
  let values := column_values col (reporting col data) in
  (Forall (fun w => 0 < w) (calculate_weights (reporting col data)) /\
   exists r : metric_pool,
     pool_column norm_ppf col data = Ret (Some r) /\
     minimum 0 values <= pooled r <= maximum 0 values /\
     (forall scale_max : R,
        Forall (fun v => 0 <= v <= scale_max) values ->
        0 <= pooled r <= scale_max)) /\
  (F64.average [0.80; 0.74; 0.71]%float [140; 196; 102]%float
   = Ret 0.7521917808219177%float /\
   ((0.71 <=? 0.7521917808219177) && (0.7521917808219177 <=? 0.80))%float
   = true /\
   F64.average [0.71; 0.71; 0.71]%float [140; 196; 102]%float
   = Ret 0.7100000000000001%float /\
   ((0 <=? 0.7100000000000001) && (0.7100000000000001 <=? 1))%float
   = true).
Proof.
  intros values.
  split; [|repeat split; vm_compute; reflexivity].
  split.
  { eapply Forall_impl; [apply calculate_weights_ge_1|].
    simpl. intros w Hw. lra. }
  assert (Hlen : length values
                 = length (calculate_weights (reporting col data)))
    by (subst values; now rewrite length_column_values,
                                  length_calculate_weights).
  pose proof (total_weights_column_pos col data Hsize) as Hpos.
  eexists. split; [apply pool_column_ret; exact Hsize|].
  cbn [pooled]. unfold column_measurements. fold values. split.
  - apply weighted_mean_bounds;
      auto using calculate_weights_nonneg, minimum_maximum_bound.
  - intros scale_max Hrange.
    apply weighted_mean_bounds; auto using calculate_weights_nonneg.
Qed.

Lemma pooled_estimate_between_extremes_witness :
  (2 <= length (reporting sensitivity_mean scenario))%nat /\
  exists r : metric_pool,
    pool_column (fun _ => 196 / 100) sensitivity_mean scenario
    = Ret (Some r) /\
    minimum 0 (column_values sensitivity_mean
                 (reporting sensitivity_mean scenario))
    <= pooled r
    <= maximum 0 (column_values sensitivity_mean
                    (reporting sensitivity_mean scenario)) /\
    (forall scale_max : R,
       Forall (fun v => 0 <= v <= scale_max)
         (column_values sensitivity_mean
            (reporting sensitivity_mean scenario)) ->
       0 <= pooled r <= scale_max).
Proof.
  split; [simpl; lia|].
  apply (pooled_estimate_between_extremes (fun _ => 196 / 100)
           sensitivity_mean scenario).
  simpl; lia.
Defined.

(** ** Raising one weight *)

Lemma total_insert (weights : list R) (j : nat) (wj wj' : R) :
  weights !! j = Some wj ->
  total (<[j := wj']> weights) = total weights + (wj' - wj).
Proof.
  revert j; induction weights as [|w weights IH]; intros [|j] Hj;
    simpl in *; try discriminate.
  - injection Hj as ->. lra.
  - rewrite (IH j Hj). lra.
Qed.

Lemma total_multiply_insert (values weights : list R) (j : nat)
    (ej wj wj' : R) :
  values !! j = Some ej ->
  weights !! j = Some wj ->
  total (np.multiply values (<[j := wj']> weights))
  = total (np.multiply values weights) + ej * (wj' - wj).
Proof.
  revert weights j; induction values as [|v values IH];
    intros [|w weights] [|j] Hv Hw; simpl in *; try discriminate.
  - injection Hv as ->. injection Hw as ->. lra.
  - rewrite (IH weights j Hv Hw). lra.
Qed.

(** Adding the mass [d] at the value [e] to a mean of total mass [w]. *)
Lemma mean_shift (s w e d : R) :
  0 < w -> 0 < d ->
  let p := s / w in
  let p' := (s + e * d) / (w + d) in
  (p < e -> p < p' < e) /\ (e < p -> e < p' < p) /\ (p = e -> p' = p).
Proof.
  intros Hw Hd p p'.
  assert (Hp : s = p * w) by (subst p; field; lra).
  assert (Hp' : p' * (w + d) = p * w + e * d) by (subst p'; rewrite Hp; field; lra).
  clearbody p p'. clear Hp.
  repeat split.
  - apply Rmult_lt_reg_r with (w + d); [lra | nra].
  - apply Rmult_lt_reg_r with (w + d); [lra | nra].
  - apply Rmult_lt_reg_r with (w + d); [lra | nra].
  - apply Rmult_lt_reg_r with (w + d); [lra | nra].
  - intros ->. apply Rmult_eq_reg_r with (w + d); [lra | lra].
Qed.

Lemma weighted_mean_insert (values weights : list R) (j : nat)
    (ej wj wj' : R) :
  length values = length weights ->
  values !! j = Some ej ->
  weights !! j = Some wj ->
  weighted_mean (measurements values (<[j := wj']> weights))
  = (total (np.multiply values weights) + ej * (wj' - wj))
    / (total weights + (wj' - wj)).
Proof.
  intros Hlen Hv Hw. unfold weighted_mean.
  rewrite <- multiply_measurements, weights_measurements
    by now rewrite length_insert.
  now rewrite (total_multiply_insert _ _ _ ej wj), (total_insert _ _ wj).
Qed.

(** C9, refuted as stated: in binary64 two studies with the estimate 85.7
    and the weights 20 and 32 pool to 85.69999999999999, which is not the
    estimate of the second study, and raising the weight of the second study
    to 37 leaves the pooled estimate where it was.  Two studies with the
    estimate 0.74 and the weights 10 and 10 pool to 0.74, and raising the
    second weight to 20 moves the pooled estimate away, to
    0.7400000000000001. *)
Lemma weight_increase_without_strict_move :
  F64.average [85.7; 85.7]%float [20; 32]%float
  = Ret 85.69999999999999%float /\
  (85.69999999999999 <? 85.7)%float = true /\
  (32 <? 37)%float = true /\
  F64.average [85.7; 85.7]%float [20; 37]%float
  = Ret 85.69999999999999%float /\
  F64.average [0.74; 0.74]%float [10; 10]%float = Ret 0.74%float /\
  F64.average [0.74; 0.74]%float [10; 20]%float
  = Ret 0.7400000000000001%float /\
  (0.74 <? 0.7400000000000001)%float = true.
Proof. repeat split; vm_compute; reflexivity. Qed.

(** C9.  In exact arithmetic: take the rows that report a column, at least
    two, and a second table whose reporting rows have the same estimates and
    the same weights except that the weight of study [j] is strictly larger.
    Then the pooled estimate of the second table lies strictly between the
    pooled estimate of the first and the estimate of study [j]; it is
    unchanged when the two were equal already.  In binary64 the scenario
    moves in this way: raising the weight 140 of the study with the estimate
    0.80 to 200 takes the pooled estimate from 0.7521917808219177 to
    0.7579518072289156, strictly closer to 0.80. *)
Theorem weight_increase_moves_pooled_estimate
    (norm_ppf : R -> R) (col : row -> option R) (data data' : list row)
    (j : nat) (ej wj wj' : R)
    (Hsize : (2 <= length (reporting col data))%nat)
    (Hvalues : column_values col (reporting col data')
               = column_values col (reporting col data))
    (Hej : column_values col (reporting col data) !! j = Some ej)
    (Hwj : calculate_weights (reporting col data) !! j = Some wj)
    (Hweights : calculate_weights (reporting col data')
                = <[j := wj']> (calculate_weights (reporting col data)))
    (Hinc : wj < wj') :
  (exists r r' : metric_pool,
     pool_column norm_ppf col data = Ret (Some r) /\
     pool_column norm_ppf col data' = Ret (Some r') /\
     (pooled r < ej -> pooled r < pooled r' < ej) /\
     (ej < pooled r -> ej < pooled r' < pooled r) /\
     (pooled r = ej -> pooled r' = pooled r)) /\
  (F64.average [0.80; 0.74; 0.71]%float [140; 196; 102]%float
   = Ret 0.7521917808219177%float /\
   F64.average [0.80; 0.74; 0.71]%float [200; 196; 102]%float
   = Ret 0.7579518072289156%float /\
   ((0.7521917808219177 <? 0.7579518072289156)
    && (0.7579518072289156 <? 0.80))%float = true).
Proof.
  split; [|repeat split; vm_compute; reflexivity].
  assert (Hlen : length (column_values col (reporting col data))
                 = length (calculate_weights (reporting col data)))
    by now rewrite length_column_values, length_calculate_weights.
  assert (Hsize' : (2 <= length (reporting col data'))%nat).
  { rewrite <- (length_calculate_weights (reporting col data')), Hweights,
      length_insert, length_calculate_weights. exact Hsize. }
  pose proof (total_weights_column_pos col data Hsize) as Hpos.
  eexists. eexists.
  split; [apply pool_column_ret; exact Hsize|].
  split; [apply pool_column_ret; exact Hsize'|].
  cbn [pooled].
  assert (Hp' : weighted_mean (column_measurements col data')
                = (total (np.multiply (column_values col (reporting col data))
                            (calculate_weights (reporting col data)))
                   + ej * (wj' - wj))
                  / (total (calculate_weights (reporting col data))
                     + (wj' - wj))).
  { unfold column_measurements. rewrite Hvalues, Hweights.
    now apply weighted_mean_insert. }
  assert (Hp : weighted_mean (column_measurements col data)
               = total (np.multiply (column_values col (reporting col data))
                          (calculate_weights (reporting col data)))
                 / total (calculate_weights (reporting col data))).
  { unfold column_measurements, weighted_mean.
    now rewrite <- multiply_measurements, weights_measurements. }
  rewrite Hp, Hp'. apply mean_shift; lra.
Qed.

Lemma weight_increase_moves_pooled_estimate_witness :
  (2 <= length (reporting sensitivity_mean scenario))%nat /\
  column_values sensitivity_mean (reporting sensitivity_mean scenario_heavier)
  = column_values sensitivity_mean (reporting sensitivity_mean scenario) /\
  column_values sensitivity_mean (reporting sensitivity_mean scenario)
    !! 0%nat = Some (80 / 100) /\
  calculate_weights (reporting sensitivity_mean scenario) !! 0%nat
  = Some 140 /\
  calculate_weights (reporting sensitivity_mean scenario_heavier)
  = <[0%nat := 200]> (calculate_weights (reporting sensitivity_mean scenario)) /\
  140 < 200 /\
  exists r r' : metric_pool,
    pool_column (fun _ => 196 / 100) sensitivity_mean scenario
    = Ret (Some r) /\
    pool_column (fun _ => 196 / 100) sensitivity_mean scenario_heavier
    = Ret (Some r') /\
    (pooled r < 80 / 100 -> pooled r < pooled r' < 80 / 100) /\
    (80 / 100 < pooled r -> 80 / 100 < pooled r' < pooled r) /\
    (pooled r = 80 / 100 -> pooled r' = pooled r).
Proof.
  split; [simpl; lia|].
  split; [reflexivity|]. split; [reflexivity|]. split; [reflexivity|].
  split; [reflexivity|]. split; [lra|].
  apply (weight_increase_moves_pooled_estimate (fun _ => 196 / 100)
           sensitivity_mean scenario scenario_heavier 0 (80 / 100) 140 200).
  - simpl; lia.
  - reflexivity.
  - reflexivity.
  - reflexivity.
  - reflexivity.
  - lra.
Defined.

(** ** Identical estimates *)

Lemma total_multiply_const (v : R) (values weights : list R) :
  length values = length weights ->
  Forall (fun e => e = v) values ->
  total (np.multiply values weights) = v * total weights.
Proof.
  revert weights; induction values as [|e values IH]; intros [|w weights];
    simpl; intros Hlen Hv; try discriminate; try lra.
  apply Forall_cons in Hv as [-> Hv].
  rewrite (IH weights) by (auto; lia). lra.
Qed.

Lemma weighted_mean_const (v : R) (values weights : list R) :
  length values = length weights ->
  total weights <> 0 ->
  Forall (fun e => e = v) values ->
  weighted_mean (measurements values weights) = v.
Proof.
  intros Hlen Hsum Hv. unfold weighted_mean.
  rewrite <- multiply_measurements, weights_measurements by exact Hlen.
  rewrite (total_multiply_const v) by assumption. field. exact Hsum.
Qed.

Lemma q_statistic_const (v : R) (values weights : list R) :
  Forall (fun e => e = v) values ->
  q_statistic (measurements values weights) v = 0.
Proof.
  unfold q_statistic.
  revert weights; induction values as [|e values IH]; intros [|w weights];
    simpl; intros Hv; try reflexivity.
  apply Forall_cons in Hv as [-> Hv].
  rewrite (IH weights Hv). lra.
Qed.

Lemma i2_of_zero (df : R) : 0 <= df -> i2_of 0 df = 0.
Proof.
  intros Hdf. unfold i2_of. destruct (Rle_dec 0 df); [reflexivity | lra].
Qed.

Lemma confidence_interval_zero_se (norm_ppf : R -> R) (v confidence : R) :
  0 <= v <= 100 ->
  calculate_confidence_interval norm_ppf v 0 confidence = (v, v).
Proof.
  intros [Hlo Hhi]. unfold calculate_confidence_interval. cbv zeta.
  rewrite Rmult_0_r. f_equal.
  - rewrite Rmax_right by lra. lra.
  - rewrite Rmin_right by lra. lra.
Qed.

(** C3, refuted as stated: in binary64 two studies with the estimate 0.74
    and the weights 10 and 20 pool to 0.7400000000000001, which is above
    0.74, and their standard error is about 7.85e-17, which is not 0. *)
Lemma identical_estimates_pool_off_point :
  F64.average [0.74; 0.74]%float [10; 20]%float
  = Ret 0.7400000000000001%float /\
  (0.74 <? 0.7400000000000001)%float = true /\
  F64.calculate_standard_error [0.74; 0.74]%float [10; 20]%float
  = Ret 7.850462293418876e-17%float /\
  (0 <? 7.850462293418876e-17)%float = true.
Proof. repeat split; vm_compute; reflexivity. Qed.

(** C3.  In exact arithmetic: when all the estimates of at least two
    reporting rows equal one value [v], pooling returns the pooled estimate
    [v], the standard error 0 and the heterogeneity 0; for [v] on the scale,
    within [0, 100], both bounds of the confidence interval are [v].  In
    binary64 this is what the two studies with the estimate 0.5 and the
    weights 10 and 20 give, and the two studies with the estimate 0.74 and
    these weights still have the heterogeneity 0. *)
Theorem identical_estimates_pool_to_point
    (norm_ppf : R -> R) (col : row -> option R) (data : list row) (v : R)
    (Hsize : (2 <= length (reporting col data))%nat)
    (Hsame : Forall (fun e => e = v)
               (column_values col (reporting col data))) :
  (exists r : metric_pool,
     pool_column norm_ppf col data = Ret (Some r) /\
     pooled r = v /\
     standard_error r = 0 /\
     heterogeneity r = 0 /\
     (0 <= v <= 100 -> ci_lower r = v /\ ci_upper r = v)) /\
  (F64.average [0.5; 0.5]%float [10; 20]%float = Ret 0.5%float /\
   F64.calculate_standard_error [0.5; 0.5]%float [10; 20]%float
   = Ret 0%float /\
   F64.calculate_heterogeneity [0.5; 0.5]%float [10; 20]%float
   = Ret 0%float /\
   F64.calculate_confidence_interval 1.959963984540054 0.5 0
   = (0.5, 0.5)%float /\
   F64.calculate_heterogeneity [0.74; 0.74]%float [10; 20]%float
   = Ret 0%float).
Proof.
  split; [|repeat split; vm_compute; reflexivity].
  assert (Hlen : length (column_values col (reporting col data))
                 = length (calculate_weights (reporting col data)))
    by now rewrite length_column_values, length_calculate_weights.
  pose proof (total_weights_column_pos col data Hsize) as Hpos.
  assert (Hp : weighted_mean (column_measurements col data) = v)
    by (apply weighted_mean_const; [exact Hlen | lra | exact Hsame]).
  assert (Hq : q_statistic (column_measurements col data) v = 0)
    by (apply q_statistic_const; exact Hsame).
  assert (Hse : sqrt (0 / total (map weight (column_measurements col data))
                      / INR (length (reporting col data))) = 0).
  { unfold Rdiv. rewrite !Rmult_0_l. apply sqrt_0. }
  eexists. split; [apply pool_column_ret; exact Hsize|].
  cbn [pooled standard_error heterogeneity ci_lower ci_upper].
  rewrite Hp, Hq, Hse. repeat split.
  - apply i2_of_zero, pos_INR.
  - rewrite confidence_interval_zero_se by assumption. reflexivity.
  - rewrite confidence_interval_zero_se by assumption. reflexivity.
Qed.

Lemma identical_estimates_pool_to_point_witness :
  (2 <= length (reporting sensitivity_mean scenario_equal))%nat /\
  Forall (fun e => e = 5 / 10)
    (column_values sensitivity_mean
       (reporting sensitivity_mean scenario_equal)) /\
  exists r : metric_pool,
    pool_column (fun _ => 196 / 100) sensitivity_mean scenario_equal
    = Ret (Some r) /\
    pooled r = 5 / 10 /\
    standard_error r = 0 /\
    heterogeneity r = 0 /\
    (0 <= 5 / 10 <= 100 -> ci_lower r = 5 / 10 /\ ci_upper r = 5 / 10).
Proof.
  split; [simpl; lia|].
  split; [repeat constructor|].
  apply (identical_estimates_pool_to_point (fun _ => 196 / 100)
           sensitivity_mean scenario_equal (5 / 10)).
  - simpl; lia.
  - repeat constructor.
Defined.

(** ** Heterogeneity *)

Lemma clip_bounds (lo hi x : R) : lo <= hi -> lo <= clip lo hi x <= hi.
Proof.
  intros Hle. unfold clip.
  pose proof (Rmin_l hi (Rmax lo x)). pose proof (Rmax_l lo x).
  split; [|lra].
  apply Rmin_glb; lra.
Qed.

Lemma i2_of_bounds (q df : R) : 0 <= i2_of q df <= 100.
Proof.
  unfold i2_of. destruct (Rle_dec q df); [lra|].
  apply clip_bounds. lra.
Qed.

Lemma calculate_heterogeneity_bounds (values weights : list R) (h : R) :
  calculate_heterogeneity values weights = Ret h -> 0 <= h <= 100.
Proof.
  unfold calculate_heterogeneity.
  destruct (length values <? 2)%nat.
  - intros [= <-]. lra.
  - destruct (np.average values weights) as [m|e]; cbn; [|discriminate].
    intros [= <-]. apply (clip_bounds 0 100). lra.
Qed.

(** The I² of [RealDataMetaAnalysis] is the same function of Q and the
    degrees of freedom. *)
Lemma real_data_i_squared (q df : R) :
  0 <= df -> RealData.i_squared q df = i2_of q df.
Proof.
  intros Hdf. unfold RealData.i_squared, i2_of, clip.
  destruct (Rlt_dec df q) as [Hlt|Hge], (Rle_dec q df) as [Hle|Hgt];
    try lra.
  symmetry. apply Rmin_right.
  assert (Hq : (q - df) / q * 100 <= 100).
  { assert (Hfrac : (q - df) / q <= 1).
    { apply Rmult_le_reg_r with q; [lra|].
      replace ((q - df) / q * q) with (q - df) by (field; lra). lra. }
    lra. }
  apply Rmax_lub; lra.
Qed.

(** C4.  For at least two reporting rows the heterogeneity returned by the
    pooling is 0 when Q ≤ n − 1 and ((Q − (n − 1)) / Q)·100 clipped to
    [0, 100] otherwise, with Q = Σ(weight·(estimate − pooledEstimate)²);
    it is what [calculate_heterogeneity] and its sibling of the automation
    framework return, and every I² returned is within [0, 100]. *)
Theorem heterogeneity_is_clipped_i_squared
    (norm_ppf : R -> R) (col : row -> option R) (data : list row)
    (Hsize : (2 <= length (reporting col data))%nat) :
  let ms := column_measurements col data in
  let values := column_values col (reporting col data) in
  let weights := calculate_weights (reporting col data) in
  let df := INR (length ms - 1) in
  (exists r : metric_pool,
     pool_column norm_ppf col data = Ret (Some r) /\
     let q := q_statistic ms (pooled r) in
     (q <= df /\ heterogeneity r = 0 \/
      df < q /\ heterogeneity r = clip 0 100 (((q - df) / q) * 100)) /\
     0 <= heterogeneity r <= 100 /\
     calculate_heterogeneity values weights = Ret (heterogeneity r) /\
     calculate_heterogeneity_framework values weights
     = Ret (heterogeneity r)) /\
  (forall (vs ws : list R) (h : R),
     calculate_heterogeneity vs ws = Ret h -> 0 <= h <= 100).
Proof.
  intros ms values weights df.
  split; [|exact calculate_heterogeneity_bounds].
  assert (Hlen : length values = length weights)
    by (subst values weights;
        now rewrite length_column_values, length_calculate_weights).
  assert (Hn : length ms = length (reporting col data))
    by apply length_column_measurements.
  pose proof (total_weights_column_pos col data Hsize) as Hpos.
  eexists. split; [apply pool_column_ret; exact Hsize|].
  cbn [pooled heterogeneity]. fold ms. rewrite <- Hn. fold df.
  split; [|split; [apply i2_of_bounds|split]].
  - unfold i2_of.
    destruct (Rle_dec (q_statistic ms (weighted_mean ms)) df) as [Hle|Hgt].
    + left. split; [exact Hle | reflexivity].
    + right. split; [lra | reflexivity].
  - subst df ms values weights.
    rewrite Hn, <- (length_column_values col data).
    apply heterogeneity_ret;
      [exact Hlen | lra | now rewrite length_column_values].
  - subst df ms values weights.
    rewrite Hn, <- (length_column_values col data).
    apply heterogeneity_framework_ret;
      [exact Hlen | lra | now rewrite length_column_values].
Qed.

Lemma heterogeneity_is_clipped_i_squared_witness :
  (2 <= length (reporting sensitivity_mean scenario))%nat /\
  exists r : metric_pool,
    pool_column (fun _ => 196 / 100) sensitivity_mean scenario
    = Ret (Some r) /\
    0 <= heterogeneity r <= 100 /\
    calculate_heterogeneity
      (column_values sensitivity_mean (reporting sensitivity_mean scenario))
      (calculate_weights (reporting sensitivity_mean scenario))
    = Ret (heterogeneity r).
Proof.
  split; [simpl; lia|].
  destruct (heterogeneity_is_clipped_i_squared (fun _ => 196 / 100)
              sensitivity_mean scenario ltac:(simpl; lia))
    as [(r & Hpool & _ & Hbounds & Hcode & _) _].
  exists r. split; [exact Hpool|]. split; [exact Hbounds | exact Hcode].
Defined.

(** ** Confidence intervals *)



Section ConfidenceInterval.

Variable norm_ppf : R -> R.

(** The quantile of a probability above one half is positive. *)
Hypothesis norm_ppf_pos : forall q : R, 1 / 2 < q < 1 -> 0 < norm_ppf q.


End ConfidenceInterval.


(** ** Fewer than two studies *)

Lemma pool_column_cases (norm_ppf : R -> R) (col : row -> option R)
    (data : list row) :
  (length (reporting col data) < 2)%nat /\
  pool_column norm_ppf col data = Ret None \/
  (2 <= length (reporting col data))%nat /\
  exists r : metric_pool, pool_column norm_ppf col data = Ret (Some r).
Proof.
  destruct (Nat.lt_ge_cases (length (reporting col data)) 2) as [Hfew|Hsize].
  - left. split; [exact Hfew | now apply pool_column_skip].
  - right. split; [exact Hsize|].
    eexists. now apply pool_column_ret.
Qed.

Lemma column_total_ret (col : row -> cell) (data : list row) :
  Forall (fun r => is_absent (col r) = false) data ->
  exists t : option Z, column_total col data = Ret t.
Proof.
  intros Hcol. unfold column_total.
  assert (Hnone : existsb (fun r => is_absent (col r)) data = false).
  { induction Hcol as [|r data Hr _ IH]; simpl; [reflexivity|].
    now rewrite Hr, IH. }
  rewrite Hnone.
  destruct (omap (fun r => cell_number (col r)) data); eexists; reflexivity.
Qed.

Lemma column_unique_ret (col : row -> text_cell) (data : list row) :
  Forall (fun r => is_text_absent (col r) = false) data ->
  column_unique col data
  = Ret (unique (omap (fun r => cell_text (col r)) data)).
Proof.
  intros Hcol. unfold column_unique.
  assert (Hnone : existsb (fun r => is_text_absent (col r)) data = false).
  { induction Hcol as [|r data Hr _ IH]; simpl; [reflexivity|].
    now rewrite Hr, IH. }
  now rewrite Hnone.
Qed.

Lemma indexed_columns_filter (f : row -> bool) (data : list row) :
  indexed_columns data -> indexed_columns (List.filter f data).
Proof.
  unfold indexed_columns. rewrite !Forall_forall.
  intros Hcols r Hr. apply Hcols.
  apply list_elem_of_In. apply list_elem_of_In, filter_In in Hr. tauto.
Qed.

Lemma calculate_pooled_estimates_ret (norm_ppf : R -> R) (data : list row) :
  indexed_columns data ->
  exists r : pooled_result,
    calculate_pooled_estimates norm_ppf data = Ret r /\
    n_studies r = length data /\
    pool_column norm_ppf sensitivity_mean data = Ret (sensitivity r) /\
    pool_column norm_ppf specificity_mean data = Ret (specificity r).
Proof.
  intros Hcols.
  destruct (column_total_ret n_patients data) as [patients Hpatients].
  { eapply Forall_impl; [exact Hcols|]. simpl. tauto. }
  destruct (column_total_ret n_controls data) as [controls Hcontrols].
  { eapply Forall_impl; [exact Hcols|]. simpl. tauto. }
  unfold calculate_pooled_estimates. cbv zeta.
  rewrite Hpatients, Hcontrols.
  rewrite !column_unique_ret
    by (eapply Forall_impl; [exact Hcols|]; simpl; tauto).
  destruct (pool_column_cases norm_ppf sensitivity_mean data)
    as [[_ ->]|[_ [s ->]]];
    destruct (pool_column_cases norm_ppf specificity_mean data)
      as [[_ ->]|[_ [p ->]]];
    cbn; eexists; repeat split.
Qed.

Lemma unique_In (names : list string) (name : string) :
  In name (unique names) <-> In name names.
Proof.
  induction names as [|n names IH]; simpl; [tauto|].
  rewrite filter_In, IH. split.
  - tauto.
  - intros [->|Hin]; [now left|].
    destruct (String.eqb_spec n name) as [->|Hne]; [now left|].
    right. split; [exact Hin | reflexivity].
Qed.

Lemma rows_of_biomarker_In (data : list row) (name : string) :
  rows_of_biomarker data name <> [] -> In name (omap biomarker_name data).
Proof.
  unfold rows_of_biomarker.
  induction data as [|r data IH]; simpl; [congruence|].
  destruct (biomarker_name r) as [n|] eqn:Hname; simpl.
  - destruct (String.eqb_spec n name) as [->|Hne].
    + intros _. now left.
    + intros Hrows. right. auto.
  - exact IH.
Qed.

Lemma meta_analysis_of_biomarker_cases (norm_ppf : R -> R)
    (biomarker_data : list row) :
  indexed_columns biomarker_data ->
  (length (valid_rows biomarker_data) < 2)%nat /\
  meta_analysis_of_biomarker norm_ppf biomarker_data = Ret None \/
  (2 <= length (valid_rows biomarker_data))%nat /\
  exists r : pooled_result,
    meta_analysis_of_biomarker norm_ppf biomarker_data = Ret (Some r).
Proof.
  intros Hcols. unfold meta_analysis_of_biomarker. cbv zeta.
  destruct (Nat.ltb_spec (length (valid_rows biomarker_data)) 2)
    as [Hfew|Hsize].
  - left. split; [exact Hfew | reflexivity].
  - right. split; [exact Hsize|].
    destruct (calculate_pooled_estimates_ret norm_ppf
                (valid_rows biomarker_data)) as (r & -> & _).
    + now apply indexed_columns_filter.
    + exists r. reflexivity.
Qed.

Section Loop.

Variable norm_ppf : R -> R.
Variable data : list row.
Hypothesis Hcols : indexed_columns data.

(** The names the loop stores a result for. *)
Let pooled_name (biomarkers : list string) (name : string) : Prop :=
  In name biomarkers /\ name <> EmptyString /\
  (2 <= length (valid_rows (rows_of_biomarker data name)))%nat.

(** The loop over the biomarkers of a table with the indexed columns
    does not raise.  A name of the list that is not empty and has two or
    more valid rows ends up in the results with what
    [calculate_pooled_estimates] returns for it; the entry of every other
    name is left as it was. *)
Lemma analyse_biomarkers_results (biomarkers : list string)
    (results : gmap string pooled_result) :
  exists results' : gmap string pooled_result,
    analyse_biomarkers norm_ppf data biomarkers results = Ret results' /\
    forall name : string,
      (pooled_name biomarkers name /\
       meta_analysis_of_biomarker norm_ppf (rows_of_biomarker data name)
       = Ret (results' !! name)) \/
      (~ pooled_name biomarkers name /\ results' !! name = results !! name).
Proof using Hcols.
  revert results. induction biomarkers as [|b rest IH]; intros results.
  - exists results. split; [reflexivity|].
    intros name. right. split; [|reflexivity]. intros [[] _].
  - simpl. destruct (String.eqb_spec b EmptyString) as [->|Hb].
    + destruct (IH results) as (results' & -> & Hspec).
      exists results'. split; [reflexivity|]. intros name.
      destruct (Hspec name) as [[(Hin & Hne & Hsize) Hres]|[Hnot Hres]].
      * left. split; [|exact Hres]. repeat split; auto. now right.
      * right. split; [|exact Hres].
        intros ([Heq|Hin] & Hne & Hsize); [congruence|].
        apply Hnot. now repeat split.
    + destruct (meta_analysis_of_biomarker_cases norm_ppf
                  (rows_of_biomarker data b)
                  (indexed_columns_filter _ _ Hcols))
        as [[Hfew Hskip]|[Hsize [m Hpool]]].
      * rewrite Hskip. cbn.
        destruct (IH results) as (results' & -> & Hspec).
        exists results'. split; [reflexivity|]. intros name.
        destruct (Hspec name) as [[(Hin & Hne & Hsize) Hres]|[Hnot Hres]].
        -- left. split; [|exact Hres]. repeat split; auto. now right.
        -- right. split; [|exact Hres].
           intros ([Heq|Hin] & Hne & Hsize); [subst; lia|].
           apply Hnot. now repeat split.
      * rewrite Hpool. cbn.
        destruct (IH (<[b := m]> results)) as (results' & -> & Hspec).
        exists results'. split; [reflexivity|]. intros name.
        destruct (Hspec name) as [[(Hin & Hne & Hsize') Hres]|[Hnot Hres]].
        -- left. split; [|exact Hres]. repeat split; auto. now right.
        -- destruct (String.eqb_spec b name) as [<-|Hother].
           ++ left. split; [repeat split; auto; now left|].
              rewrite Hres, lookup_insert_eq. exact Hpool.
           ++ right. split.
              ** intros ([Heq|Hin] & Hne & Hsize'); [congruence|].
                 apply Hnot. now repeat split.
              ** rewrite Hres. now apply lookup_insert_ne.
Qed.

End Loop.




(** * Further properties of the code *)

(** ** When the standard error and the heterogeneity raise *)

Lemma average_outcomes (values weights : list R) :
  (length values <> length weights /\
   np.average values weights = Raise TypeError) \/
  (length values = length weights /\ total weights = 0 /\
   np.average values weights = Raise ZeroDivisionError) \/
  (length values = length weights /\ total weights <> 0 /\
   np.average values weights
   = Ret (weighted_mean (measurements values weights))).
Proof.
  destruct (Nat.eq_dec (length values) (length weights)) as [Hlen|Hlen].
  - right. destruct (Req_dec_T (total weights) 0) as [Hzero|Hsum].
    + left. auto using average_zero_weights.
    + right. auto using average_weighted_mean.
  - left. split; [exact Hlen|]. unfold np.average.
    apply Nat.eqb_neq in Hlen. now rewrite Hlen.
Qed.

(** The two implementations of the heterogeneity agree on every input. *)
Lemma calculate_heterogeneity_framework_eq (values weights : list R) :
  calculate_heterogeneity_framework values weights
  = calculate_heterogeneity values weights.
Proof.
  destruct (Nat.lt_ge_cases (length values) 2) as [Hfew|Hsize].
  - unfold calculate_heterogeneity_framework, calculate_heterogeneity.
    apply Nat.ltb_lt in Hfew. now rewrite Hfew.
  - destruct (average_outcomes values weights)
      as [[Hlen Hraise]|[(Hlen & Hzero & Hraise)|(Hlen & Hsum & _)]].
    + unfold calculate_heterogeneity_framework, calculate_heterogeneity.
      rewrite Hraise. now destruct (length values <? 2)%nat.
    + unfold calculate_heterogeneity_framework, calculate_heterogeneity.
      rewrite Hraise. now destruct (length values <? 2)%nat.
    + now rewrite heterogeneity_framework_ret, heterogeneity_ret.
Qed.

Lemma heterogeneity_cases (values weights : list R) :
  ((length values < 2)%nat /\
   calculate_heterogeneity values weights = Ret 0) \/
  ((2 <= length values)%nat /\ length values <> length weights /\
   calculate_heterogeneity values weights = Raise TypeError) \/
  ((2 <= length values)%nat /\ length values = length weights /\
   total weights = 0 /\
   calculate_heterogeneity values weights = Raise ZeroDivisionError) \/
  ((2 <= length values)%nat /\ length values = length weights /\
   total weights <> 0 /\
   calculate_heterogeneity values weights
   = Ret (i2_of (q_statistic (measurements values weights)
                   (weighted_mean (measurements values weights)))
            (INR (length values - 1)))).
Proof.
  destruct (Nat.lt_ge_cases (length values) 2) as [Hfew|Hsize].
  - left. split; [exact Hfew|]. unfold calculate_heterogeneity.
    apply Nat.ltb_lt in Hfew. now rewrite Hfew.
  - right.
    assert (Hguard : (length values <? 2)%nat = false)
      by now apply Nat.ltb_ge.
    destruct (average_outcomes values weights)
      as [[Hlen Hraise]|[(Hlen & Hzero & Hraise)|(Hlen & Hsum & _)]].
    + left. unfold calculate_heterogeneity. now rewrite Hguard, Hraise.
    + right. left. unfold calculate_heterogeneity.
      now rewrite Hguard, Hraise.
    + right. right. repeat split; try assumption.
      now apply heterogeneity_ret.
Qed.

(** X1.  [calculate_standard_error] and
    [calculate_heterogeneity] return 0 for fewer than two values whatever
    the weights are.  For two or more values they raise exactly when
    [np.average] does: [TypeError] when the two arrays differ in length and
    [ZeroDivisionError] when the weights sum to zero. *)
Theorem standard_error_and_heterogeneity_raise (values weights : list R) :
  ((length values < 2)%nat /\
   calculate_standard_error values weights = Ret 0 /\
   calculate_heterogeneity values weights = Ret 0) \/
  ((2 <= length values)%nat /\ length values <> length weights /\
   calculate_standard_error values weights = Raise TypeError /\
   calculate_heterogeneity values weights = Raise TypeError) \/
  ((2 <= length values)%nat /\ length values = length weights /\
   total weights = 0 /\
   calculate_standard_error values weights = Raise ZeroDivisionError /\
   calculate_heterogeneity values weights = Raise ZeroDivisionError) \/
  ((2 <= length values)%nat /\ length values = length weights /\
   total weights <> 0 /\
   (exists se : R, calculate_standard_error values weights = Ret se) /\
   (exists h : R, calculate_heterogeneity values weights = Ret h)).
Proof.
  destruct (Nat.lt_ge_cases (length values) 2) as [Hfew|Hsize].
  - left. split; [exact Hfew|].
    unfold calculate_standard_error, calculate_heterogeneity.
    apply Nat.ltb_lt in Hfew. now rewrite Hfew.
  - right.
    assert (Hguard : (length values <? 2)%nat = false)
      by now apply Nat.ltb_ge.
    destruct (average_outcomes values weights)
      as [[Hlen Hraise]|[(Hlen & Hzero & Hraise)|(Hlen & Hsum & _)]].
    + left. unfold calculate_standard_error, calculate_heterogeneity.
      now rewrite Hguard, Hraise.
    + right. left. unfold calculate_standard_error, calculate_heterogeneity.
      now rewrite Hguard, Hraise.
    + right. right. repeat split; try assumption.
      * eexists. now apply standard_error_ret.
      * eexists. now apply heterogeneity_ret.
Qed.

(** ** The heterogeneity stays below 100 *)

Lemma i2_of_below_100 (q df : R) : 0 < df -> 0 <= i2_of q df < 100.
Proof.
  intros Hdf. split; [apply i2_of_bounds|].
  unfold i2_of, clip. destruct (Rle_dec q df) as [Hle|Hgt]; [lra|].
  apply Rnot_le_lt in Hgt.
  assert (Hfrac : (q - df) / q < 1).
  { apply Rmult_lt_reg_r with q; [lra|].
    replace ((q - df) / q * q) with (q - df) by (field; lra). lra. }
  eapply Rle_lt_trans; [apply Rmin_r|].
  apply Rmax_lub_lt; lra.
Qed.

Lemma i2_of_positive (q df : R) : 0 <= df -> (0 < i2_of q df <-> df < q).
Proof.
  intros Hdf. unfold i2_of, clip.
  destruct (Rle_dec q df) as [Hle|Hgt]; [split; lra|].
  apply Rnot_le_lt in Hgt. split; [intros _; exact Hgt|]. intros _.
  assert (Hfrac : 0 < (q - df) / q)
    by (apply Rdiv_lt_0_compat; lra).
  apply Rmin_glb_lt; [lra|].
  eapply Rlt_le_trans; [|apply Rmax_r]. lra.
Qed.

Lemma INR_pred_pos (n : nat) : (2 <= n)%nat -> 0 < INR (n - 1).
Proof. intros Hn. apply lt_0_INR. lia. Qed.

(** X2.  Whatever [calculate_heterogeneity] returns is at least 0 and
    strictly below 100: with two or more values the degrees of freedom are
    positive, so the clip at 100 is never reached.  For two or more values
    the result is positive exactly when Q exceeds the degrees of freedom. *)
Theorem heterogeneity_below_100 (values weights : list R) (h : R)
    (Hret : calculate_heterogeneity values weights = Ret h) :
  0 <= h < 100 /\
  ((2 <= length values)%nat ->
   (0 < h <->
    INR (length values - 1)
    < q_statistic (measurements values weights)
        (weighted_mean (measurements values weights)))).
Proof.
  destruct (heterogeneity_cases values weights)
    as [(Hfew & Hzero)|[(_ & _ & Hraise)|[(_ & _ & _ & Hraise)
                                         |(Hsize & Hlen & Hsum & Hhet)]]].
  - rewrite Hzero in Hret. injection Hret as <-. split; [lra | lia].
  - rewrite Hraise in Hret. discriminate.
  - rewrite Hraise in Hret. discriminate.
  - rewrite Hhet in Hret. injection Hret as <-. split.
    + apply i2_of_below_100, INR_pred_pos, Hsize.
    + intros _. apply i2_of_positive. apply pos_INR.
Qed.

Lemma heterogeneity_of_0_and_10 :
  calculate_heterogeneity [0; 10] [1; 1] = Ret 98.
Proof.
  rewrite heterogeneity_ret by (simpl; first [lia | lra]).
  assert (Hmean : weighted_mean (measurements [0; 10] [1; 1]) = 5)
    by (unfold weighted_mean; simpl; field).
  rewrite Hmean.
  assert (Hq : q_statistic (measurements [0; 10] [1; 1]) 5 = 50)
    by (unfold q_statistic; simpl; ring).
  rewrite Hq. f_equal. unfold i2_of, clip. simpl INR.
  destruct (Rle_dec 50 1) as [Hle|_]; [lra|].
  rewrite Rmax_right by lra. rewrite Rmin_right by lra. field.
Qed.

Lemma heterogeneity_below_100_witness :
  calculate_heterogeneity [0; 10] [1; 1] = Ret 98 /\ 0 <= 98 < 100.
Proof.
  split; [exact heterogeneity_of_0_and_10|].
  apply (heterogeneity_below_100 [0; 10] [1; 1] 98).
  exact heterogeneity_of_0_and_10.
Defined.

(** ** A standard error of zero *)

Lemma square_nonneg (x : R) : 0 <= x * x.
Proof. exact (Rle_0_sqr x). Qed.

Lemma q_statistic_nonneg (values weights : list R) :
  Forall (fun w => 0 <= w) weights ->
  forall m : R, 0 <= q_statistic (measurements values weights) m.
Proof.
  intros Hw m. unfold q_statistic.
  revert values; induction Hw as [|w weights Hw0 _ IH]; intros [|v values];
    simpl; try lra.
  specialize (IH values).
  pose proof (square_nonneg (v - m)) as Hsq.
  apply Rplus_le_le_0_compat; [now apply Rmult_le_pos | exact IH].
Qed.

Lemma q_statistic_zero (values weights : list R) (m : R) :
  length values = length weights ->
  Forall (fun w => 0 < w) weights ->
  q_statistic (measurements values weights) m = 0 ->
  Forall (fun v => v = m) values.
Proof.
  intros Hlen Hw. revert values Hlen.
  induction Hw as [|w weights Hw0 Hw IH]; intros [|v values] Hlen Hq;
    try discriminate; [constructor|].
  unfold q_statistic in Hq. simpl in Hq.
  assert (Hrest : 0 <= q_statistic (measurements values weights) m).
  { apply q_statistic_nonneg. eapply Forall_impl; [exact Hw|].
    simpl. intros; lra. }
  unfold q_statistic in Hrest.
  pose proof (square_nonneg (v - m)) as Hsq0.
  assert (Hhead : 0 <= w * ((v - m) * (v - m)))
    by (apply Rmult_le_pos; lra).
  constructor.
  - assert (Hprod : w * ((v - m) * (v - m)) = 0) by lra.
    apply Rmult_integral in Hprod as [Hw1|Hsq]; [lra|].
    apply Rmult_integral in Hsq as [Hv|Hv]; lra.
  - apply IH; [simpl in Hlen; lia|]. unfold q_statistic. lra.
Qed.

Lemma calculate_weights_pos (data : list row) :
  Forall (fun w => 0 < w) (calculate_weights data).
Proof.
  eapply Forall_impl; [apply calculate_weights_ge_1|].
  simpl. intros w Hw. lra.
Qed.

(** X3.  For at least two reporting rows the standard error is not negative,
    and it is 0 only when all their estimates are equal (to the pooled
    estimate); the heterogeneity is 0 then. *)
Theorem standard_error_zero_only_if_identical
    (norm_ppf : R -> R) (col : row -> option R) (data : list row)
    (Hsize : (2 <= length (reporting col data))%nat) :
  exists r : metric_pool,
    pool_column norm_ppf col data = Ret (Some r) /\
    0 <= standard_error r /\
    (standard_error r = 0 ->
     Forall (fun v => v = pooled r)
       (column_values col (reporting col data))) /\
    (standard_error r = 0 -> heterogeneity r = 0).
Proof.
  assert (Hlen : length (column_values col (reporting col data))
                 = length (calculate_weights (reporting col data)))
    by now rewrite length_column_values, length_calculate_weights.
  pose proof (total_weights_column_pos col data Hsize) as Hpos.
  pose proof (q_statistic_nonneg (column_values col (reporting col data))
                _ (calculate_weights_nonneg (reporting col data))
                (weighted_mean (column_measurements col data))) as Hq.
  fold (column_measurements col data) in Hq.
  assert (Hn : 0 < INR (length (reporting col data)))
    by (apply lt_0_INR; lia).
  eexists. split; [apply pool_column_ret; exact Hsize|].
  cbn [pooled standard_error heterogeneity].
  rewrite weights_column_measurements.
  set (p := weighted_mean (column_measurements col data)) in *.
  set (q := q_statistic (column_measurements col data) p) in *.
  assert (Hvar : 0 <= q / total (calculate_weights (reporting col data))
                      / INR (length (reporting col data))).
  { apply Rmult_le_pos; [apply Rmult_le_pos|]; try lra;
      left; now apply Rinv_0_lt_compat. }
  assert (Hzero : sqrt (q / total (calculate_weights (reporting col data))
                        / INR (length (reporting col data))) = 0
                  <-> q = 0).
  { split.
    - intros Hsqrt. apply sqrt_eq_0 in Hsqrt; [|exact Hvar].
      apply Rmult_integral in Hsqrt as [Hsqrt|Hinv].
      + apply Rmult_integral in Hsqrt as [Hsqrt|Hinv]; [exact Hsqrt|].
        pose proof (Rinv_0_lt_compat _ Hpos). lra.
      + pose proof (Rinv_0_lt_compat _ Hn). lra.
    - intros ->. unfold Rdiv. rewrite !Rmult_0_l. apply sqrt_0. }
  split; [apply sqrt_pos|]. split.
  - rewrite Hzero.
    intros Hq0. apply (q_statistic_zero _ _ p Hlen);
      [apply calculate_weights_pos | exact Hq0].
  - rewrite Hzero. intros ->. apply i2_of_zero, pos_INR.
Qed.

Lemma standard_error_zero_only_if_identical_witness :
  (2 <= length (reporting sensitivity_mean scenario_equal))%nat /\
  exists r : metric_pool,
    pool_column (fun _ => 196 / 100) sensitivity_mean scenario_equal
    = Ret (Some r) /\
    0 <= standard_error r.
Proof.
  split; [simpl; lia|].
  destruct (standard_error_zero_only_if_identical (fun _ => 196 / 100)
              sensitivity_mean scenario_equal ltac:(simpl; lia))
    as (r & Hpool & Hse & _).
  exists r. split; [exact Hpool | exact Hse].
Defined.

(** ** The odds ratio of two pooled percentages *)

(** X4.  For a sensitivity and a specificity strictly between 0 and 100 the
    diagnostic odds ratio is a positive number, and it does not decrease
    when the sensitivity or the specificity increases. *)
Theorem diagnostic_odds_ratio_monotone
    (sensitivity specificity sensitivity' specificity' : R)
    (Hsens : 0 < sensitivity <= sensitivity') (Hsens' : sensitivity' < 100)
    (Hspec : 0 < specificity <= specificity')
    (Hspec' : specificity' < 100) :
  exists dor dor' : R,
    calculate_diagnostic_odds_ratio sensitivity specificity = Some dor /\
    calculate_diagnostic_odds_ratio sensitivity' specificity' = Some dor' /\
    0 < dor <= dor'.
Proof.
  eexists. eexists.
  split; [apply diagnostic_odds_ratio_some; lra|].
  split; [apply diagnostic_odds_ratio_some; lra|].
  assert (Hodds : forall x y : R,
             0 < x <= y -> y < 100 ->
             0 < x / 100 / (1 - x / 100)
             <= y / 100 / (1 - y / 100)).
  { intros x y Hx Hy.
    assert (Hdx : 0 < 1 - x / 100) by lra.
    assert (Hdy : 0 < 1 - y / 100) by lra.
    split; [apply Rdiv_lt_0_compat; lra|].
    apply Rmult_le_reg_r with ((1 - x / 100) * (1 - y / 100));
      [now apply Rmult_lt_0_compat|].
    replace (x / 100 / (1 - x / 100) * ((1 - x / 100) * (1 - y / 100)))
      with (x / 100 * (1 - y / 100)) by (field; lra).
    replace (y / 100 / (1 - y / 100) * ((1 - x / 100) * (1 - y / 100)))
      with (y / 100 * (1 - x / 100)) by (field; lra).
    lra. }
  destruct (Hodds sensitivity sensitivity' Hsens Hsens') as [Hs0 Hs].
  destruct (Hodds specificity specificity' Hspec Hspec') as [Hp0 Hp].
  set (a := sensitivity / 100 / (1 - sensitivity / 100)) in *.
  set (a' := sensitivity' / 100 / (1 - sensitivity' / 100)) in *.
  set (b := specificity / 100 / (1 - specificity / 100)) in *.
  set (b' := specificity' / 100 / (1 - specificity' / 100)) in *.
  assert (Hinv : forall x : R,
             0 < x < 100 ->
             (1 - x / 100) / (x / 100) = / (x / 100 / (1 - x / 100))).
  { intros x Hx. field. lra. }
  rewrite (Hinv specificity) by lra. rewrite (Hinv specificity') by lra.
  fold b b'. unfold Rdiv. rewrite !Rinv_inv. split.
  - now apply Rmult_lt_0_compat.
  - apply Rmult_le_compat; lra.
Qed.

Lemma diagnostic_odds_ratio_monotone_witness :
  0 < 80 <= 85 /\ 85 < 100 /\ 0 < 90 <= 95 /\ 95 < 100 /\
  exists dor dor' : R,
    calculate_diagnostic_odds_ratio 80 90 = Some dor /\
    calculate_diagnostic_odds_ratio 85 95 = Some dor' /\
    0 < dor <= dor'.
Proof.
  split; [lra|]. split; [lra|]. split; [lra|]. split; [lra|].
  apply (diagnostic_odds_ratio_monotone 80 90 85 95); lra.
Defined.

(** ** What [calculate_pooled_estimates] returns *)







(** ** The interval of a pooled estimate on the scale *)

Lemma confidence_interval_brackets (norm_ppf : R -> R)
    (estimate se confidence : R) :
  0 <= norm_ppf ((1 + confidence) / 2) ->
  0 <= se ->
  0 <= estimate <= 100 ->
  let ci := calculate_confidence_interval norm_ppf estimate se confidence in
  0 <= fst ci <= estimate /\ estimate <= snd ci <= 100.
Proof.
  intros Hz Hse Hest. unfold calculate_confidence_interval. cbv zeta.
  cbn [fst snd].
  set (margin := norm_ppf ((1 + confidence) / 2) * se).
  assert (Hmargin : 0 <= margin) by (apply Rmult_le_pos; assumption).
  pose proof (Rmax_l 0 (estimate - margin)).
  pose proof (Rmin_l 100 (estimate + margin)).
  repeat split; try lra.
  - apply Rmax_lub; lra.
  - apply Rmin_glb; lra.
Qed.

(** X6.  When the estimates of at least two reporting rows are all on the
    scale [0, 100] and the normal quantile of the 95% level is not negative,
    the pooled result is ordered [0 <= ci_lower <= pooled <= ci_upper <= 100],
    so the two error-bar lengths [pooled - ci_lower] and [ci_upper - pooled]
    that [create_forest_plots] hands to the plot are not negative. *)
Theorem pooled_interval_on_scale
    (norm_ppf : R -> R) (col : row -> option R) (data : list row)
    (Hz : 0 <= norm_ppf ((1 + 95 / 100) / 2))
    (Hsize : (2 <= length (reporting col data))%nat)
    (Hrange : Forall (fun v => 0 <= v <= 100)
                (column_values col (reporting col data))) :
  exists r : metric_pool,
    pool_column norm_ppf col data = Ret (Some r) /\
    0 <= ci_lower r <= pooled r /\
    pooled r <= ci_upper r <= 100 /\
    0 <= pooled r - ci_lower r /\
    0 <= ci_upper r - pooled r.
Proof.
  assert (Hlen : length (column_values col (reporting col data))
                 = length (calculate_weights (reporting col data)))
    by now rewrite length_column_values, length_calculate_weights.
  pose proof (total_weights_column_pos col data Hsize) as Hpos.
  assert (Hp : 0 <= weighted_mean (column_measurements col data) <= 100).
  { unfold column_measurements.
    apply weighted_mean_bounds; auto using calculate_weights_nonneg. }
  eexists. split; [apply pool_column_ret; exact Hsize|].
  cbn [pooled ci_lower ci_upper].
  match goal with
  | |- context [calculate_confidence_interval norm_ppf ?p ?se ?c] =>
      pose proof (confidence_interval_brackets norm_ppf p se c Hz
                    (sqrt_pos _) Hp) as Hci
  end.
  cbv zeta in Hci. lra.
Qed.

Lemma pooled_interval_on_scale_witness :
  0 <= 196 / 100 /\
  (2 <= length (reporting sensitivity_mean scenario))%nat /\
  Forall (fun v => 0 <= v <= 100)
    (column_values sensitivity_mean (reporting sensitivity_mean scenario)) /\
  exists r : metric_pool,
    pool_column (fun _ => 196 / 100) sensitivity_mean scenario
    = Ret (Some r) /\
    0 <= ci_lower r <= pooled r /\
    pooled r <= ci_upper r <= 100 /\
    0 <= pooled r - ci_lower r /\
    0 <= ci_upper r - pooled r.
Proof.
  assert (Hrange : Forall (fun v => 0 <= v <= 100)
                     (column_values sensitivity_mean
                        (reporting sensitivity_mean scenario)))
    by (repeat constructor; lra).
  split; [lra|]. split; [simpl; lia|]. split; [exact Hrange|].
  apply (pooled_interval_on_scale (fun _ => 196 / 100) sensitivity_mean
           scenario); [lra | simpl; lia | exact Hrange].
Defined.

(** ** The summary table *)

Lemma truthy_false (x : R) : truthy x = false <-> x = 0.
Proof. unfold truthy. destruct (Req_dec_T x 0); split; congruence. Qed.

Lemma if_truthy_none {A : Type} (x : R) (cell : A) :
  if_truthy (Some x) cell = None <-> x = 0.
Proof.
  unfold if_truthy. rewrite <- truthy_false.
  destruct (truthy x); split; congruence.
Qed.

(** X7.  In the summary row of a result with a pooled sensitivity, the
    pooled sensitivity reads ['NR'] exactly when it is 0, and the interval
    reads ['NR'] exactly when its lower bound was clipped to 0, that is when
    the pooled sensitivity does not exceed the margin z·SE; otherwise the
    row shows the two bounds. *)
Theorem summary_row_hides_clipped_interval
    (norm_ppf : R -> R) (data : list row)
    (Hcols : indexed_columns data)
    (Hsize : (2 <= length (reporting sensitivity_mean data))%nat) :
  exists (r : pooled_result) (s : metric_pool),
    calculate_pooled_estimates norm_ppf data = Ret r /\
    sensitivity r = Some s /\
    (sr_pooled_sensitivity (summary_row_of r) = None <-> pooled s = 0) /\
    (sr_sensitivity_ci (summary_row_of r) = None <->
     pooled s <= norm_ppf ((1 + 95 / 100) / 2) * standard_error s) /\
    (sr_sensitivity_ci (summary_row_of r) = None \/
     sr_sensitivity_ci (summary_row_of r) = Some (ci_lower s, ci_upper s)).
Proof.
  destruct (calculate_pooled_estimates_ret norm_ppf data Hcols)
    as (r & Hret & _ & Hsens & _).
  rewrite pool_column_ret in Hsens by exact Hsize.
  injection Hsens as Hsens. symmetry in Hsens.
  eexists r, _. split; [exact Hret|]. split; [exact Hsens|].
  unfold summary_row_of. cbv zeta. cbn [sr_pooled_sensitivity sr_sensitivity_ci].
  rewrite Hsens. cbn [fmap option_fmap option_map pooled ci_lower ci_upper
                      standard_error pooled_or_0].
  split; [apply if_truthy_none|]. split.
  - rewrite if_truthy_none.
    unfold calculate_confidence_interval. cbv zeta. cbn [fst].
    split.
    + intros Hclip.
      match goal with
      | H : Rmax 0 ?x = 0 |- _ => pose proof (Rmax_r 0 x)
      end. lra.
    + intros Hle. apply Rmax_left. lra.
  - unfold if_truthy. destruct (truthy _); [right | left]; reflexivity.
Qed.

Lemma summary_row_hides_clipped_interval_witness :
  indexed_columns scenario /\
  (2 <= length (reporting sensitivity_mean scenario))%nat /\
  exists (r : pooled_result) (s : metric_pool),
    calculate_pooled_estimates (fun _ => 196 / 100) scenario = Ret r /\
    sensitivity r = Some s /\
    (sr_sensitivity_ci (summary_row_of r) = None <->
     pooled s <= 196 / 100 * standard_error s).
Proof.
  assert (Hcols : indexed_columns scenario) by (repeat constructor).
  split; [exact Hcols|]. split; [simpl; lia|].
  destruct (summary_row_hides_clipped_interval (fun _ => 196 / 100) scenario
              Hcols ltac:(simpl; lia))
    as (r & s & Hret & Hsens & _ & Hci & _).
  exists r, s. split; [exact Hret|]. split; [exact Hsens | exact Hci].
Defined.

(** ** The overall quality *)

Lemma total_bounds (lo hi : R) (l : list R) :
  Forall (fun x => lo <= x <= hi) l ->
  lo * INR (length l) <= total l <= hi * INR (length l).
Proof.
  induction 1 as [|x l Hx _ IH].
  - simpl. lra.
  - change (length (x :: l)) with (S (length l)). rewrite S_INR. simpl. lra.
Qed.

Lemma np_mean_bounds (lo hi : R) (l : list R) :
  l <> [] ->
  Forall (fun x => lo <= x <= hi) l ->
  exists avg : R, np_mean l = Some avg /\ lo <= avg <= hi.
Proof.
  intros Hne Hall. destruct l as [|x l]; [contradiction|].
  eexists. split; [reflexivity|]. rewrite np_sum_total.
  apply quotient_between; [|now apply total_bounds].
  apply lt_0_INR. simpl. lia.
Qed.

(** X8.  Without any result [assess_overall_quality] finds no average
    (NaN) and rates the quality ['Low'].  With results the average
    heterogeneity lies between any two bounds that hold for the sensitivity
    heterogeneity of every result (0 for a result without pooled
    sensitivity), and the rating is ['High'] below 50, ['Low'] from 75 on,
    and ['Moderate'] between. *)
Theorem overall_quality_rating (results : gmap string pooled_result) :
  (results = empty /\
   average_heterogeneity (assess_overall_quality results) = None /\
   rating (assess_overall_quality results) = Low /\
   total_studies_included (assess_overall_quality results) = 0%nat) \/
  (results <> empty /\
   exists avg : R,
     average_heterogeneity (assess_overall_quality results) = Some avg /\
     (forall lo hi : R,
        map_Forall (fun _ r => lo <= sensitivity_heterogeneity r <= hi)
          results ->
        lo <= avg <= hi) /\
     (rating (assess_overall_quality results) = High <-> avg < 50) /\
     (rating (assess_overall_quality results) = Moderate <->
      50 <= avg < 75) /\
     (rating (assess_overall_quality results) = Low <-> 75 <= avg)).
Proof.
  destruct (decide (results = empty)) as [->|Hne].
  - left. split; [reflexivity|].
    unfold assess_overall_quality. rewrite map_to_list_empty.
    repeat split.
  - right. split; [exact Hne|].
    assert (Hlist : map sensitivity_heterogeneity
                      (map snd (map_to_list results)) <> []).
    { intros Hnil. apply Hne, map_to_list_empty_iff.
      destruct (map_to_list results); [reflexivity | discriminate]. }
    destruct (np_mean_bounds
                (minimum 0 (map sensitivity_heterogeneity
                              (map snd (map_to_list results))))
                (maximum 0 (map sensitivity_heterogeneity
                              (map snd (map_to_list results))))
                _ Hlist (minimum_maximum_bound 0 _))
      as (avg & Havg & _).
    exists avg. unfold assess_overall_quality. cbv zeta.
    cbn [average_heterogeneity rating]. rewrite Havg.
    split; [reflexivity|]. split.
    + intros lo hi Hall.
      destruct (np_mean_bounds lo hi _ Hlist) as (avg' & Havg' & Hbounds).
      * apply map_Forall_to_list in Hall.
        rewrite Forall_forall in Hall. apply Forall_forall.
        intros x Hx. apply list_elem_of_In, in_map_iff in Hx
          as (r & <- & Hr).
        apply in_map_iff in Hr as ([name r'] & <- & Hin).
        apply list_elem_of_In in Hin. exact (Hall _ Hin).
      * rewrite Havg in Havg'. injection Havg' as <-. exact Hbounds.
    + destruct (Rlt_dec avg 50) as [H50|H50];
        [|destruct (Rlt_dec avg 75) as [H75|H75]];
        repeat split; intros; try discriminate; try reflexivity; lra.
Qed.

Lemma overall_quality_rating_witness :
  rating (assess_overall_quality empty) = Low.
Proof.
  destruct (overall_quality_rating empty)
    as [(_ & _ & Hlow & _)|(Hne & _)]; [exact Hlow | now contradiction Hne].
Defined.

(** ** Recommendations *)

Lemma best_biomarkers_In (items : list (string * pooled_result))
    (name : string) (sens spec : R) :
  In (name, sens, spec) (best_biomarkers items) <->
  exists r : pooled_result,
    In (name, r) items /\
    sens = pooled_or_0 (sensitivity r) /\
    spec = pooled_or_0 (specificity r) /\
    70 < sens /\ 80 < spec.
Proof.
  unfold best_biomarkers. rewrite in_flat_map. split.
  - intros ([b r] & Hin & Hbest). cbn [fst snd] in Hbest.
    destruct (truthy _ && truthy _); [|contradiction].
    destruct (Rlt_dec 70 _) as [H70|_]; [|contradiction].
    destruct (Rlt_dec 80 _) as [H80|_]; [|contradiction].
    destruct Hbest as [[= <- <- <-]|[]]. eauto 6.
  - intros (r & Hin & -> & -> & H70 & H80).
    exists (name, r). split; [exact Hin|]. cbn [fst snd].
    assert (Hs : truthy (pooled_or_0 (sensitivity r)) = true)
      by (unfold truthy; destruct (Req_dec_T _ 0); [lra | reflexivity]).
    assert (Hp : truthy (pooled_or_0 (specificity r)) = true)
      by (unfold truthy; destruct (Req_dec_T _ 0); [lra | reflexivity]).
    rewrite Hs, Hp. cbn.
    destruct (Rlt_dec 70 _); [|contradiction].
    destruct (Rlt_dec 80 _); [|contradiction].
    now left.
Qed.

Lemma high_het_biomarkers_In (items : list (string * pooled_result))
    (name : string) :
  In name (high_het_biomarkers items) <->
  exists r : pooled_result,
    In (name, r) items /\ 75 < sensitivity_heterogeneity r.
Proof.
  unfold high_het_biomarkers. rewrite in_flat_map. split.
  - intros ([b r] & Hin & Hhigh). cbn [fst snd] in Hhigh.
    destruct (Rlt_dec 75 _) as [H75|_]; [|contradiction].
    destruct Hhigh as [<-|[]]. eauto.
  - intros (r & Hin & H75). exists (name, r). split; [exact Hin|].
    cbn [fst snd]. destruct (Rlt_dec 75 _); [now left | contradiction].
Qed.

Lemma In_take {A : Type} (n : nat) (l : list A) (x : A) :
  In x (take n l) -> In x l.
Proof.
  revert l; induction n as [|n IH]; intros [|y l]; simpl; try tauto.
  intros [->|Hin]; auto.
Qed.

Lemma nonempty_In {A : Type} (l : list A) : l <> [] <-> exists x, In x l.
Proof.
  destruct l as [|x l]; split; try congruence.
  - intros [x []].
  - intros _. exists x. now left.
Qed.

(** X9.  [generate_recommendations] gives at most two recommendations.  The
    clinical one is there exactly when some biomarker has a pooled
    sensitivity above 70 and a pooled specificity above 80; it names at most
    three biomarkers, each of which meets both thresholds.  The research
    one is there exactly when some biomarker has a sensitivity heterogeneity
    above 75. *)
Theorem recommendations_follow_thresholds
    (items : list (string * pooled_result)) :
  let recs := generate_recommendations items in
  let qualified := fun r : pooled_result =>
    70 < pooled_or_0 (sensitivity r) /\ 80 < pooled_or_0 (specificity r) in
  (length recs <= 2)%nat /\
  ((exists rec, In rec recs /\ category rec = "Clinical Implementation") <->
   (exists name r, In (name, r) items /\ qualified r)) /\
  ((exists rec, In rec recs /\ category rec = "Research Priority") <->
   (exists name r, In (name, r) items /\
                   75 < sensitivity_heterogeneity r)) /\
  (forall rec : recommendation,
     In rec recs -> category rec = "Clinical Implementation" ->
     exists names : list string,
       recommendation_text rec
       = "Consider clinical implementation of "
         +:+ String.concat ", " names +:+ " as first-line biomarkers" /\
       names <> [] /\ (length names <= 3)%nat /\
       Forall (fun name => exists r, In (name, r) items /\ qualified r)
         names).
Proof.
  intros recs qualified. subst recs.
  assert (Hbest : best_biomarkers items <> [] <->
                  exists name r, In (name, r) items /\ qualified r).
  { rewrite nonempty_In. split.
    - intros ([[name sens] spec] & Hin).
      apply best_biomarkers_In in Hin as (r & Hin & -> & -> & H70 & H80).
      exists name, r. now repeat split.
    - intros (name & r & Hin & H70 & H80).
      exists (name, pooled_or_0 (sensitivity r),
              pooled_or_0 (specificity r)).
      apply best_biomarkers_In. exists r. now repeat split. }
  assert (Hhigh : high_het_biomarkers items <> [] <->
                  exists name r, In (name, r) items /\
                                 75 < sensitivity_heterogeneity r).
  { rewrite nonempty_In. split.
    - intros (name & Hin). apply high_het_biomarkers_In in Hin as (r & Hr).
      now exists name, r.
    - intros (name & r & Hr). exists name. apply high_het_biomarkers_In.
      now exists r. }
  rewrite <- Hbest, <- Hhigh. clear Hbest Hhigh.
  set (names := map (fun b : string * R * R => fst (fst b))
                  (take 3 (best_biomarkers items))).
  set (clinical := mkRecommendation "Clinical Implementation"
                     ("Consider clinical implementation of "
                      +:+ String.concat ", " names
                      +:+ " as first-line biomarkers") "Strong").
  set (research := mkRecommendation "Research Priority"
                     ("Further research needed for "
                      +:+ String.concat ", " (high_het_biomarkers items)
                      +:+ " due to high heterogeneity") "Moderate").
  assert (Hshape :
            generate_recommendations items
            = (if decide (best_biomarkers items = []) then [] else [clinical])
              ++ (if decide (high_het_biomarkers items = []) then []
                  else [research])).
  { subst clinical research names. unfold generate_recommendations.
    destruct (best_biomarkers items), (high_het_biomarkers items);
      reflexivity. }
  rewrite Hshape. clear Hshape.
  assert (Hin : forall rec : recommendation,
             In rec ((if decide (best_biomarkers items = []) then []
                      else [clinical])
                     ++ (if decide (high_het_biomarkers items = []) then []
                         else [research]))
             <-> (best_biomarkers items <> [] /\ rec = clinical) \/
                 (high_het_biomarkers items <> [] /\ rec = research)).
  { intros rec. rewrite in_app_iff.
    destruct (decide (best_biomarkers items = [])) as [Hb|Hb];
      destruct (decide (high_het_biomarkers items = [])) as [Hh|Hh];
      simpl; intuition congruence. }
  split.
  { destruct (decide (best_biomarkers items = []));
      destruct (decide (high_het_biomarkers items = [])); simpl; lia. }
  split; [|split].
  - split.
    + intros (rec & Hrec & Hcat).
      apply Hin in Hrec as [[Hne _]|[_ ->]]; [exact Hne | discriminate].
    + intros Hne. exists clinical. split; [|reflexivity].
      apply Hin. now left.
  - split.
    + intros (rec & Hrec & Hcat).
      apply Hin in Hrec as [[_ ->]|[Hne _]]; [discriminate | exact Hne].
    + intros Hne. exists research. split; [|reflexivity].
      apply Hin. now right.
  - intros rec Hrec Hcat.
    apply Hin in Hrec as [[Hne ->]|[_ ->]]; [|discriminate].
    exists names. split; [reflexivity|]. split; [|split].
    + subst names. destruct (best_biomarkers items); [contradiction|].
      discriminate.
    + subst names. rewrite length_map, length_take. lia.
    + apply Forall_forall. intros name Hname.
      apply list_elem_of_In, in_map_iff in Hname
        as ([[n sens] spec] & <- & Hin3).
      apply In_take, best_biomarkers_In in Hin3
        as (r & Hr & -> & -> & H70 & H80).
      exists r. now repeat split.
Qed.

(** ** The metrics of one study *)

Lemma proportion_in_unit_interval (a b : Z) :
  (0 <= a)%Z -> (0 <= b)%Z ->
  0 <= (if (0 <? a + b)%Z then IZR a / IZR (a + b) else 0) <= 1.
Proof.
  intros Ha Hb. destruct (Z.ltb_spec 0 (a + b)) as [Hpos|_]; [|lra].
  apply IZR_lt in Hpos. apply IZR_le in Ha. apply IZR_le in Hb.
  rewrite plus_IZR in *.
  apply quotient_between; [exact Hpos | lra].
Qed.

Lemma interval_196_brackets (estimate se : R) :
  0 <= estimate <= 1 -> 0 <= se ->
  0 <= Rmax 0 (estimate - 196 / 100 * se) <= estimate /\
  estimate <= Rmin 1 (estimate + 196 / 100 * se) <= 1.
Proof.
  intros Hest Hse.
  pose proof (Rmax_l 0 (estimate - 196 / 100 * se)).
  pose proof (Rmin_l 1 (estimate + 196 / 100 * se)).
  repeat split; try lra.
  - apply Rmax_lub; lra.
  - apply Rmin_glb; lra.
Qed.

Lemma study_sensitivity_range (s : RealData.study) :
  counts_nonneg s ->
  0 <= RealData.sm_sensitivity (RealData.calculate_study_metrics s) <= 1.
Proof.
  intros (Htp & Hfp & Hfn & Htn). cbn.
  now apply proportion_in_unit_interval.
Qed.

Lemma study_specificity_range (s : RealData.study) :
  counts_nonneg s ->
  0 <= RealData.sm_specificity (RealData.calculate_study_metrics s) <= 1.
Proof.
  intros (Htp & Hfp & Hfn & Htn). cbn.
  now apply proportion_in_unit_interval.
Qed.

(** X10.  For a 2x2 table without negative counts the sensitivity and the
    specificity of [calculate_study_metrics] are proportions in [0, 1] (0
    when the table has no diseased or no healthy subject), and each of their
    intervals stays within [0, 1] and contains its estimate. *)
Theorem study_metrics_are_proportions (s : RealData.study)
    (Hcounts : counts_nonneg s) :
  let m := RealData.calculate_study_metrics s in
  (0 <= RealData.sm_sensitivity m <= 1 /\
   0 <= fst (RealData.sm_sens_ci m) <= RealData.sm_sensitivity m /\
   RealData.sm_sensitivity m <= snd (RealData.sm_sens_ci m) <= 1) /\
  (0 <= RealData.sm_specificity m <= 1 /\
   0 <= fst (RealData.sm_spec_ci m) <= RealData.sm_specificity m /\
   RealData.sm_specificity m <= snd (RealData.sm_spec_ci m) <= 1) /\
  ((RealData.tp s + RealData.fn s = 0)%Z -> RealData.sm_sensitivity m = 0) /\
  ((RealData.tn s + RealData.fp s = 0)%Z -> RealData.sm_specificity m = 0).
Proof.
  intros m.
  pose proof (study_sensitivity_range s Hcounts) as Hsens.
  pose proof (study_specificity_range s Hcounts) as Hspec.
  fold m in Hsens, Hspec.
  assert (Hse : forall b x, 0 <= (if b : bool then sqrt x else 0))
    by (intros [|] x; [apply sqrt_pos | lra]).
  repeat split; try apply Hsens; try apply Hspec.
  - apply interval_196_brackets; [exact Hsens | apply Hse].
  - apply interval_196_brackets; [exact Hsens | apply Hse].
  - apply interval_196_brackets; [exact Hsens | apply Hse].
  - apply interval_196_brackets; [exact Hsens | apply Hse].
  - apply interval_196_brackets; [exact Hspec | apply Hse].
  - apply interval_196_brackets; [exact Hspec | apply Hse].
  - apply interval_196_brackets; [exact Hspec | apply Hse].
  - apply interval_196_brackets; [exact Hspec | apply Hse].
  - intros Hzero. subst m. cbn. now rewrite Hzero.
  - intros Hzero. subst m. cbn. now rewrite Hzero.
Qed.

Lemma study_metrics_are_proportions_witness :
  let s := RealData.mkStudy "GDF-15" 56 10 14 60 70 70 in
  counts_nonneg s /\
  0 <= RealData.sm_sensitivity (RealData.calculate_study_metrics s) <= 1.
Proof.
  intros s.
  assert (Hcounts : counts_nonneg s) by (unfold counts_nonneg; simpl; lia).
  split; [exact Hcounts|].
  apply (study_metrics_are_proportions s Hcounts).
Defined.

Lemma proportion_below_1 (a b : R) : 0 <= a -> 0 < b -> a / (a + b) < 1.
Proof.
  intros Ha Hb. apply Rmult_lt_reg_r with (a + b); [lra|].
  replace (a / (a + b) * (a + b)) with a by (field; lra). lra.
Qed.

Lemma proportion_positive (a b : R) : 0 < a -> 0 <= b -> 0 < a / (a + b).
Proof. intros Ha Hb. apply Rdiv_lt_0_compat; lra. Qed.

Lemma quotient_ge (x d : R) : 0 <= x -> 0 < d <= 1 -> x <= x / d.
Proof.
  intros Hx Hd. apply Rmult_le_reg_r with d; [lra|].
  replace (x / d * d) with x by (field; lra). nra.
Qed.

(** X11.  For a 2x2 table of non-negative counts the positive likelihood
    ratio of [calculate_study_metrics] is infinite exactly when the table
    has no false positive but a true negative, and the negative likelihood
    ratio exactly when it has no true negative.  With four positive counts
    the odds ratio and the two likelihood ratios are finite and positive,
    the positive likelihood ratio is at least the sensitivity and the
    negative one at least 1 minus the sensitivity. *)
Theorem study_likelihood_ratios (s : RealData.study)
    (Hcounts : counts_nonneg s) :
  let m := RealData.calculate_study_metrics s in
  (RealData.sm_lr_positive m = RealData.Inf <->
   RealData.fp s = 0%Z /\ (0 < RealData.tn s)%Z) /\
  (RealData.sm_lr_negative m = RealData.Inf <-> RealData.tn s = 0%Z) /\
  ((0 < RealData.tp s)%Z -> (0 < RealData.fp s)%Z ->
   (0 < RealData.fn s)%Z -> (0 < RealData.tn s)%Z ->
   exists dor lr_pos lr_neg : R,
     RealData.sm_dor m = RealData.Fin dor /\
     RealData.sm_lr_positive m = RealData.Fin lr_pos /\
     RealData.sm_lr_negative m = RealData.Fin lr_neg /\
     0 < dor /\ 0 < lr_pos /\ 0 < lr_neg /\
     RealData.sm_sensitivity m <= lr_pos /\
     1 - RealData.sm_sensitivity m <= lr_neg).
Proof.
  intros m. subst m. destruct Hcounts as (Htp & Hfp & Hfn & Htn).
  cbn. unfold RealData.study_dor.
  apply IZR_le in Htp as Ha, Hfp as Hb, Hfn as Hc, Htn as Hd.
  split; [|split].
  - destruct (Z.ltb_spec 0 (RealData.tn s + RealData.fp s)) as [Hsum|Hsum].
    + rewrite plus_IZR.
      destruct (Z.eq_dec (RealData.fp s) 0%Z) as [Hzero|Hpos].
      * rewrite Hzero, Rplus_0_r.
        assert (Hd' : 0 < IZR (RealData.tn s)) by (apply IZR_lt; lia).
        replace (IZR (RealData.tn s) / IZR (RealData.tn s)) with 1
          by (field; lra).
        destruct (Rlt_dec 1 1) as [Hlt|_]; [lra|].
        split; [intros _; split; lia | reflexivity].
      * assert (Hb' : 0 < IZR (RealData.fp s)) by (apply IZR_lt; lia).
        pose proof (proportion_below_1 _ _ Hd Hb') as Hspec.
        destruct (Rlt_dec _ 1) as [_|Hno]; [|contradiction].
        split; [discriminate | intros [Hzero _]; contradiction].
    + destruct (Rlt_dec 0 1) as [_|Hno]; [|lra].
      split; [discriminate | intros [Hzero Hpos]; lia].
  - destruct (Z.ltb_spec 0 (RealData.tn s + RealData.fp s)) as [Hsum|Hsum].
    + rewrite plus_IZR.
      destruct (Z.eq_dec (RealData.tn s) 0%Z) as [Hzero|Hpos].
      * rewrite Hzero. unfold Rdiv. rewrite Rmult_0_l.
        destruct (Rlt_dec 0 0) as [Hlt|_]; [lra|].
        split; reflexivity.
      * assert (Hd' : 0 < IZR (RealData.tn s)) by (apply IZR_lt; lia).
        pose proof (proportion_positive _ _ Hd' Hb) as Hspec.
        destruct (Rlt_dec 0 _) as [_|Hno]; [|contradiction].
        split; [discriminate | intros Hzero; contradiction].
    + destruct (Rlt_dec 0 0) as [Hlt|_]; [lra|].
      split; [intros _; lia | reflexivity].
  - intros Htp' Hfp' Hfn' Htn'.
    destruct (Z.ltb_spec 0 (RealData.fp s)) as [_|Hno]; [|lia].
    destruct (Z.ltb_spec 0 (RealData.fn s)) as [_|Hno]; [|lia].
    destruct (Z.ltb_spec 0 (RealData.tp s + RealData.fn s)) as [_|Hno];
      [|lia].
    destruct (Z.ltb_spec 0 (RealData.tn s + RealData.fp s)) as [_|Hno];
      [|lia].
    cbn. rewrite !mult_IZR, !plus_IZR.
    apply IZR_lt in Htp', Hfp', Hfn', Htn'.
    set (a := IZR (RealData.tp s)) in *.
    set (b := IZR (RealData.fp s)) in *.
    set (c := IZR (RealData.fn s)) in *.
    set (d := IZR (RealData.tn s)) in *.
    pose proof (proportion_below_1 d b Hd Hfp') as Hspec.
    pose proof (proportion_positive d b Htn' Hb) as Hspec0.
    pose proof (proportion_below_1 a c Ha Hfn') as Hsens.
    pose proof (proportion_positive a c Htp' Hc) as Hsens0.
    destruct (Rlt_dec (d / (d + b)) 1) as [_|Hno]; [|contradiction].
    destruct (Rlt_dec 0 (d / (d + b))) as [_|Hno]; [|contradiction].
    eexists _, _, _. repeat split; try reflexivity.
    + apply Rdiv_lt_0_compat; apply Rmult_lt_0_compat; lra.
    + apply Rdiv_lt_0_compat; lra.
    + apply Rdiv_lt_0_compat; lra.
    + apply quotient_ge; lra.
    + apply quotient_ge; lra.
Qed.

Lemma study_likelihood_ratios_witness :
  let s := RealData.mkStudy "GDF-15" 56 10 14 60 70 70 in
  counts_nonneg s /\
  RealData.sm_lr_positive (RealData.calculate_study_metrics s)
  <> RealData.Inf /\
  RealData.sm_lr_negative (RealData.calculate_study_metrics s)
  <> RealData.Inf.
Proof.
  intros s.
  assert (Hcounts : counts_nonneg s) by (unfold counts_nonneg; simpl; lia).
  split; [exact Hcounts|].
  destruct (study_likelihood_ratios s Hcounts) as (Hpos & Hneg & _).
  split.
  - intros Hinf. apply Hpos in Hinf as [Hzero _]. discriminate Hzero.
  - intros Hinf. apply Hneg in Hinf. discriminate Hinf.
Defined.

(** ** The pooled result of the studies of one biomarker *)

Lemma perform_result (studies_data : list RealData.study) (name : string) :
  let bs := studies_of studies_data name in
  let metrics := map RealData.calculate_study_metrics bs in
  let ws := study_weights bs in
  let ms_sens := study_measurements RealData.sm_sensitivity bs in
  let ms_spec := study_measurements RealData.sm_specificity bs in
  let sens := weighted_mean ms_sens in
  let spec := weighted_mean ms_spec in
  let sens_se := sqrt (q_statistic ms_sens sens / total ws
                       / INR (length bs)) in
  let spec_se := sqrt (q_statistic ms_spec spec / total ws
                       / INR (length bs)) in
  let df := INR (length bs - 1) in
  (2 <= length bs)%nat ->
  total ws <> 0 ->
  RealData.perform_meta_analysis_biomarker studies_data name
  = Ret (Some (RealData.mkMetaResult (length bs)
                 (fold_left Z.add (map RealData.sm_n_patients metrics) 0%Z)
                 (fold_left Z.add (map RealData.sm_n_controls metrics) 0%Z)
                 sens sens_se (RealData.confidence_interval sens sens_se)
                 (RealData.i_squared (q_statistic ms_sens sens) df)
                 spec spec_se (RealData.confidence_interval spec spec_se)
                 (RealData.i_squared (q_statistic ms_spec spec) df)
                 match RealData.log_dors metrics with
                 | [] => None
                 | _ => Some (exp (total (RealData.log_dors metrics)
                                   / INR (length (RealData.log_dors metrics))))
                 end
                 ((sens + spec) / 2))).
Proof.
  intros bs metrics ws ms_sens ms_spec sens spec sens_se spec_se df
    Hsize Hsum.
  unfold RealData.perform_meta_analysis_biomarker. cbv zeta.
  fold (studies_of studies_data name). fold bs.
  destruct (Nat.ltb_spec (length bs) 2); [lia|].
  fold (study_weights bs). fold ws. fold metrics.
  assert (Hlen : forall metric : RealData.study_metrics -> R,
             length (map metric metrics) = length ws)
    by (intros metric; subst metrics ws;
        now rewrite !length_map, length_study_weights).
  rewrite (average_weighted_mean _ _ (Hlen RealData.sm_sensitivity) Hsum).
  cbn.
  rewrite (average_weighted_mean _ _ (Hlen RealData.sm_specificity) Hsum).
  cbn.
  rewrite (average_sq_dev _ _ _ (Hlen RealData.sm_sensitivity) Hsum). cbn.
  rewrite (average_sq_dev _ _ _ (Hlen RealData.sm_specificity) Hsum). cbn.
  rewrite !np_sum_total.
  rewrite !multiply_sq_dev_measurements by apply Hlen.
  rewrite !length_map.
  subst metrics. rewrite !length_map.
  destruct (RealData.log_dors (map RealData.calculate_study_metrics bs));
    reflexivity.
Qed.

Lemma study_weights_nonneg (studies : list RealData.study) :
  Forall counts_nonneg studies ->
  Forall (fun w => 0 <= w) (study_weights studies).
Proof.
  unfold study_weights. induction 1 as [|s studies Hs _ IH]; simpl;
    constructor; [|exact IH].
  destruct Hs as (Htp & Hfp & Hfn & Htn). apply IZR_le. lia.
Qed.

Lemma total_nonneg (l : list R) : Forall (fun w => 0 <= w) l -> 0 <= total l.
Proof. induction 1; simpl; lra. Qed.

Lemma study_values_range (metric : RealData.study_metrics -> R)
    (studies : list RealData.study) :
  (forall s, counts_nonneg s ->
             0 <= metric (RealData.calculate_study_metrics s) <= 1) ->
  Forall counts_nonneg studies ->
  Forall (fun v => 0 <= v <= 1)
    (map metric (map RealData.calculate_study_metrics studies)).
Proof.
  intros Hmetric. induction 1 as [|s studies Hs _ IH]; simpl; constructor;
    auto.
Qed.

Lemma real_data_i_squared_below_100 (q : R) (n : nat) :
  (2 <= n)%nat -> 0 <= RealData.i_squared q (INR (n - 1)) < 100.
Proof.
  intros Hn. pose proof (INR_pred_pos n Hn) as Hdf.
  rewrite real_data_i_squared by lra. now apply i2_of_below_100.
Qed.

(** X13.  A result of [perform_meta_analysis_biomarker] for studies without
    negative counts counts at least two studies; its pooled sensitivity and
    specificity and its summary AUC are within [0, 1]; each interval stays
    within [0, 1] and contains its pooled estimate; and both I² values are
    at least 0 and below 100. *)
Theorem real_data_result_invariants
    (studies_data : list RealData.study) (name : string)
    (r : RealData.meta_result)
    (Hcounts : Forall counts_nonneg (studies_of studies_data name))
    (Hret : RealData.perform_meta_analysis_biomarker studies_data name
            = Ret (Some r)) :
  RealData.mr_n_studies r = length (studies_of studies_data name) /\
  (2 <= RealData.mr_n_studies r)%nat /\
  0 <= RealData.pooled_sensitivity r <= 1 /\
  0 <= RealData.pooled_specificity r <= 1 /\
  0 <= RealData.summary_auc r <= 1 /\
  (0 <= fst (RealData.sensitivity_ci r) <= RealData.pooled_sensitivity r /\
   RealData.pooled_sensitivity r <= snd (RealData.sensitivity_ci r) <= 1) /\
  (0 <= fst (RealData.specificity_ci r) <= RealData.pooled_specificity r /\
   RealData.pooled_specificity r <= snd (RealData.specificity_ci r) <= 1) /\
  0 <= RealData.sensitivity_i2 r < 100 /\
  0 <= RealData.specificity_i2 r < 100.
Proof.
  destruct (perform_some_inv _ _ _ Hret) as [Hsize Hsum].
  rewrite perform_result in Hret by assumption.
  injection Hret as <-.
  cbn [RealData.mr_n_studies RealData.pooled_sensitivity
       RealData.pooled_specificity RealData.summary_auc
       RealData.sensitivity_ci RealData.specificity_ci
       RealData.sensitivity_i2 RealData.specificity_i2].
  set (bs := studies_of studies_data name) in *.
  pose proof (study_weights_nonneg bs Hcounts) as Hw.
  assert (Hpos : 0 < total (study_weights bs))
    by (pose proof (total_nonneg _ Hw); lra).
  assert (Hlen : forall metric : RealData.study_metrics -> R,
             length (map metric (map RealData.calculate_study_metrics bs))
             = length (study_weights bs))
    by (intros metric; now rewrite !length_map, length_study_weights).
  assert (Hsens : 0 <= weighted_mean
                         (study_measurements RealData.sm_sensitivity bs) <= 1).
  { apply weighted_mean_bounds; auto.
    apply study_values_range; [apply study_sensitivity_range | exact Hcounts]. }
  assert (Hspec : 0 <= weighted_mean
                         (study_measurements RealData.sm_specificity bs) <= 1).
  { apply weighted_mean_bounds; auto.
    apply study_values_range; [apply study_specificity_range | exact Hcounts]. }
  split; [reflexivity|]. split; [exact Hsize|].
  split; [exact Hsens|]. split; [exact Hspec|]. split; [lra|].
  split; [apply interval_196_brackets; [exact Hsens | apply sqrt_pos]|].
  split; [apply interval_196_brackets; [exact Hspec | apply sqrt_pos]|].
  split; now apply real_data_i_squared_below_100.
Qed.

Lemma real_data_result_invariants_witness :
  Forall counts_nonneg (studies_of load_real_study_data "GDF-15") /\
  exists r : RealData.meta_result,
    RealData.perform_meta_analysis_biomarker load_real_study_data "GDF-15"
    = Ret (Some r) /\
    RealData.mr_n_studies r = 7%nat /\
    0 <= RealData.pooled_sensitivity r <= 1 /\
    0 <= RealData.sensitivity_i2 r < 100.
Proof.
  assert (Hcounts : Forall counts_nonneg
                      (studies_of load_real_study_data "GDF-15"))
    by (repeat constructor; simpl; lia).
  split; [exact Hcounts|].
  destruct (perform_ret load_real_study_data "GDF-15")
    as (r & Hret & _); [simpl; lia | cbn -[IZR]; rewrite !plus_IZR; lra |].
  exists r. split; [exact Hret|].
  destruct (real_data_result_invariants load_real_study_data "GDF-15" r
              Hcounts Hret)
    as (Hn & _ & Hsens & _ & _ & _ & _ & Hi2 & _).
  split; [exact Hn|]. split; [exact Hsens | exact Hi2].
Defined.

(** ** The pooled odds ratio *)

Lemma exp_le_mono (x y : R) : x <= y -> exp x <= exp y.
Proof.
  intros [Hlt| ->]; [left; now apply exp_increasing | right; reflexivity].
Qed.

Lemma ln_le_mono (x y : R) : 0 < x -> x <= y -> ln x <= ln y.
Proof.
  intros Hx [Hlt| ->]; [left; now apply ln_increasing | right; reflexivity].
Qed.

(** The studies whose odds ratio enters the pooled one: all four counts are
    positive. *)
Lemma log_dors_In (studies : list RealData.study) (y : R) :
  Forall counts_nonneg studies ->
  (In y (RealData.log_dors (map RealData.calculate_study_metrics studies))
   <-> exists s : RealData.study,
         In s studies /\
         (0 < RealData.tp s)%Z /\ (0 < RealData.fp s)%Z /\
         (0 < RealData.fn s)%Z /\ (0 < RealData.tn s)%Z /\
         y = ln (IZR (RealData.tp s * RealData.tn s)
                 / IZR (RealData.fp s * RealData.fn s))).
Proof.
  intros Hcounts. unfold RealData.log_dors. rewrite in_flat_map.
  rewrite Forall_forall in Hcounts. split.
  - intros (m & Hm & Hy). apply in_map_iff in Hm as (s & <- & Hs).
    destruct (Hcounts s (proj2 (list_elem_of_In _ _) Hs))
      as (Htp & Hfp & Hfn & Htn).
    exists s. split; [exact Hs|]. cbn in Hy. unfold RealData.study_dor in Hy.
    destruct (Z.ltb_spec 0 (RealData.fp s)) as [Hfp'|_]; [|contradiction].
    destruct (Z.ltb_spec 0 (RealData.fn s)) as [Hfn'|_]; [|contradiction].
    cbn in Hy.
    destruct (Rlt_dec 0 _) as [Hpos|_] in Hy; [|contradiction].
    destruct Hy as [<-|[]].
    assert (Hprod : (0 < RealData.tp s * RealData.tn s)%Z).
    { apply lt_IZR.
      assert (Hden : 0 < IZR (RealData.fp s * RealData.fn s))
        by (apply IZR_lt; lia).
      apply Rmult_lt_compat_r
        with (r := IZR (RealData.fp s * RealData.fn s)) in Hpos;
        [|exact Hden].
      unfold Rdiv in Hpos. rewrite Rmult_assoc, Rinv_l in Hpos; lra. }
    repeat split; try assumption; nia.
  - intros (s & Hs & Htp & Hfp & Hfn & Htn & ->).
    exists (RealData.calculate_study_metrics s).
    split; [now apply in_map|]. cbn. unfold RealData.study_dor.
    destruct (Z.ltb_spec 0 (RealData.fp s)) as [_|Hno]; [|lia].
    destruct (Z.ltb_spec 0 (RealData.fn s)) as [_|Hno]; [|lia].
    cbn.
    assert (Hpos : 0 < IZR (RealData.tp s * RealData.tn s)
                       / IZR (RealData.fp s * RealData.fn s))
      by (apply Rdiv_lt_0_compat; apply IZR_lt; lia).
    destruct (Rlt_dec 0 _); [now left | contradiction].
Qed.

(** X12.  In a result for studies without negative counts the pooled odds
    ratio is missing exactly when every study has a zero in its 2x2 table;
    such studies do not enter it.  Otherwise it is positive and lies between
    any two positive bounds that hold for the odds ratios
    [(tp·tn) / (fp·fn)] of the studies with four positive counts. *)
Theorem pooled_dor_between_study_dors
    (studies_data : list RealData.study) (name : string)
    (r : RealData.meta_result)
    (Hcounts : Forall counts_nonneg (studies_of studies_data name))
    (Hret : RealData.perform_meta_analysis_biomarker studies_data name
            = Ret (Some r)) :
  (RealData.pooled_dor r = None <->
   Forall (fun s => (RealData.tp s = 0 \/ RealData.fp s = 0 \/
                     RealData.fn s = 0 \/ RealData.tn s = 0)%Z)
     (studies_of studies_data name)) /\
  (forall dor : R,
     RealData.pooled_dor r = Some dor ->
     0 < dor /\
     forall lo hi : R,
       0 < lo ->
       Forall (fun s =>
                 (0 < RealData.tp s)%Z -> (0 < RealData.fp s)%Z ->
                 (0 < RealData.fn s)%Z -> (0 < RealData.tn s)%Z ->
                 lo <= IZR (RealData.tp s * RealData.tn s)
                       / IZR (RealData.fp s * RealData.fn s) <= hi)
         (studies_of studies_data name) ->
       lo <= dor <= hi).
Proof.
  destruct (perform_some_inv _ _ _ Hret) as [Hsize Hsum].
  rewrite perform_result in Hret by assumption.
  injection Hret as <-. cbn [RealData.pooled_dor].
  set (bs := studies_of studies_data name) in *.
  pose proof (log_dors_In bs) as Hin.
  set (lds := RealData.log_dors (map RealData.calculate_study_metrics bs))
    in *.
  split.
  - split.
    + intros Hnone. assert (Hnil : lds = [])
        by (destruct lds; [reflexivity | discriminate]).
      apply Forall_forall. intros s Hs.
      destruct (Z_le_gt_dec (RealData.tp s) 0) as [Htp|Htp];
        destruct (Z_le_gt_dec (RealData.fp s) 0) as [Hfp|Hfp];
        destruct (Z_le_gt_dec (RealData.fn s) 0) as [Hfn|Hfn];
        destruct (Z_le_gt_dec (RealData.tn s) 0) as [Htn|Htn].
      all: pose proof Hcounts as Hc; rewrite Forall_forall in Hc;
        destruct (Hc s Hs) as (Htp0 & Hfp0 & Hfn0 & Htn0).
      all: try lia.
      exfalso.
      assert (Hy : In (ln (IZR (RealData.tp s * RealData.tn s)
                           / IZR (RealData.fp s * RealData.fn s))) lds).
      { apply Hin; [exact Hcounts|]. exists s.
        split; [now apply list_elem_of_In|]. repeat split; lia. }
      rewrite Hnil in Hy. destruct Hy.
    + intros Hzero. destruct lds as [|y lds'] eqn:Elds; [reflexivity|].
      exfalso.
      assert (Hy : In y (y :: lds')) by now left.
      apply Hin in Hy as (s & Hs & Htp & Hfp & Hfn & Htn & _);
        [|exact Hcounts].
      rewrite Forall_forall in Hzero.
      specialize (Hzero s (proj2 (list_elem_of_In _ _) Hs)). lia.
  - intros dor Hdor.
    destruct lds as [|y lds'] eqn:Elds; [discriminate|].
    injection Hdor as <-. split; [apply exp_pos|].
    intros lo hi Hlo Hall.
    assert (Hbounds : Forall (fun x => ln lo <= x <= ln hi) (y :: lds')).
    { apply Forall_forall. intros x Hx. apply list_elem_of_In in Hx.
      apply Hin in Hx as (s & Hs & Htp & Hfp & Hfn & Htn & ->);
        [|exact Hcounts].
      rewrite Forall_forall in Hall.
      specialize (Hall s (proj2 (list_elem_of_In _ _) Hs) Htp Hfp Hfn Htn).
      split; apply ln_le_mono; lra. }
    assert (Hmean : ln lo <= total (y :: lds') / INR (length (y :: lds'))
                    <= ln hi).
    { apply quotient_between; [apply lt_0_INR; simpl; lia|].
      now apply total_bounds. }
    assert (Hhi : lo <= hi).
    { apply Forall_cons in Hbounds as [[Hl Hh] _].
      destruct (Rle_lt_dec lo hi) as [Hle|Hgt]; [exact Hle|]. exfalso.
      assert (Hy : In y (y :: lds')) by now left.
      apply Hin in Hy as (s & Hs & Htp & Hfp & Hfn & Htn & _);
        [|exact Hcounts].
      rewrite Forall_forall in Hall.
      specialize (Hall s (proj2 (list_elem_of_In _ _) Hs) Htp Hfp Hfn Htn).
      lra. }
    pose proof (exp_ln lo Hlo) as Hexp_lo.
    pose proof (exp_ln hi ltac:(lra)) as Hexp_hi.
    split.
    + apply Rle_trans with (exp (ln lo)); [lra | apply exp_le_mono].
      exact (proj1 Hmean).
    + apply Rle_trans with (exp (ln hi)); [apply exp_le_mono | lra].
      exact (proj2 Hmean).
Qed.

Lemma pooled_dor_between_study_dors_witness :
  Forall counts_nonneg (studies_of load_real_study_data "FGF-21") /\
  exists r : RealData.meta_result,
    RealData.perform_meta_analysis_biomarker load_real_study_data "FGF-21"
    = Ret (Some r) /\
    exists dor : R, RealData.pooled_dor r = Some dor /\ 0 < dor.
Proof.
  assert (Hcounts : Forall counts_nonneg
                      (studies_of load_real_study_data "FGF-21"))
    by (repeat constructor; simpl; lia).
  split; [exact Hcounts|].
  destruct (perform_ret load_real_study_data "FGF-21")
    as (r & Hret & _);
    [simpl; lia | cbn -[IZR]; rewrite !plus_IZR; lra |].
  exists r. split; [exact Hret|].
  destruct (pooled_dor_between_study_dors load_real_study_data "FGF-21" r
              Hcounts Hret) as [Hnone Hsome].
  destruct (RealData.pooled_dor r) as [dor|] eqn:Hdor.
  - exists dor. split; [reflexivity|]. now apply Hsome.
  - exfalso. destruct Hnone as [Hnone _]. specialize (Hnone eq_refl).
    cbn in Hnone. apply Forall_cons in Hnone as [_ Hnone].
    apply Forall_cons in Hnone as [Hdavis _]. cbn in Hdavis. lia.
Defined.

(** ** The framework's meta-analysis *)

Lemma framework_pool_metric (norm_ppf : R -> R) (values weights : list R) :
  Framework.pool_metric norm_ppf Framework.default_config values weights
  = match pool_metric norm_ppf values weights with
    | Ret r => Ret (framework_metric_of r)
    | Raise e => Raise e
    end.
Proof.
  unfold Framework.pool_metric, pool_metric.
  rewrite calculate_heterogeneity_framework_eq.
  destruct (np.average values weights) as [p|e]; cbn; [|reflexivity].
  destruct (calculate_standard_error values weights) as [se|e]; cbn;
    [|reflexivity].
  destruct (calculate_heterogeneity values weights) as [h|e]; reflexivity.
Qed.

Lemma framework_pool_column (norm_ppf : R -> R) (col : row -> option R)
    (data : list row) :
  Framework.pool_column norm_ppf Framework.default_config col data
  = match pool_column norm_ppf col data with
    | Ret s => Ret (framework_metric_of <$> s)
    | Raise e => Raise e
    end.
Proof.
  unfold Framework.pool_column, pool_column. cbv zeta.
  rewrite calculate_weights_framework_eq, framework_pool_metric.
  destruct (2 <=? length (reporting col data))%nat; [|reflexivity].
  destruct (pool_metric norm_ppf _ _) as [r|e]; reflexivity.
Qed.

(** X14.  With the default configuration [calculate_meta_analysis] of the
    framework returns for every table, also for one without the sample-size
    columns, and what it stores for a metric is what
    [AutomatedMetaAnalysis] pools for it: the same pooled estimate, interval
    and heterogeneity, although the weights and the heterogeneity are
    computed by differently written code. *)
Theorem framework_agrees_with_automated
    (norm_ppf : R -> R) (data : list row) :
  exists (fr : Framework.result) (sens spec : option metric_pool),
    Framework.calculate_meta_analysis norm_ppf Framework.default_config data
    = Ret fr /\
    pool_column norm_ppf sensitivity_mean data = Ret sens /\
    pool_column norm_ppf specificity_mean data = Ret spec /\
    Framework.fr_n_studies fr = length data /\
    Framework.fr_sensitivity fr = framework_metric_of <$> sens /\
    Framework.fr_specificity fr = framework_metric_of <$> spec.
Proof.
  unfold Framework.calculate_meta_analysis.
  rewrite !framework_pool_column.
  assert (Hsens : exists sens, pool_column norm_ppf sensitivity_mean data
                               = Ret sens).
  { destruct (pool_column_cases norm_ppf sensitivity_mean data)
      as [[_ ->]|[_ [s ->]]]; eauto. }
  assert (Hspec : exists spec, pool_column norm_ppf specificity_mean data
                               = Ret spec).
  { destruct (pool_column_cases norm_ppf specificity_mean data)
      as [[_ ->]|[_ [s ->]]]; eauto. }
  destruct Hsens as [sens ->]. destruct Hspec as [spec ->]. cbn.
  eexists _, sens, spec. repeat split.
Qed.

Lemma framework_calculate_ret (norm_ppf : R -> R) (cfg : Framework.config)
    (data : list row) :
  exists r : Framework.result,
    Framework.calculate_meta_analysis norm_ppf cfg data = Ret r /\
    Framework.fr_n_studies r = length data.
Proof.
  assert (Hcol : forall col, exists o,
             Framework.pool_column norm_ppf cfg col data = Ret o).
  { intros col. unfold Framework.pool_column. cbv zeta.
    destruct (Nat.leb_spec 2 (length (reporting col data))) as [Hsize|_];
      [|eauto].
    unfold Framework.pool_metric.
    rewrite calculate_heterogeneity_framework_eq,
      calculate_weights_framework_eq.
    pose proof (total_weights_column_pos col data Hsize) as Hpos.
    rewrite average_weighted_mean, standard_error_ret, heterogeneity_ret;
      try (now rewrite length_column_values, ?length_calculate_weights);
      try lra.
    cbn. eauto. }
  unfold Framework.calculate_meta_analysis.
  destruct (Hcol sensitivity_mean) as [sens ->].
  destruct (Hcol specificity_mean) as [spec ->]. cbn.
  eexists. split; reflexivity.
Qed.

Section FrameworkLoop.

Variable norm_ppf : R -> R.
Variable cfg : Framework.config.
Variable perf_df : list row.

(** The names the framework's loop stores a result for. *)
Let stored_name (biomarkers : list string) (name : string) : Prop :=
  In name biomarkers /\
  (Framework.min_studies_for_meta cfg
   <= length (valid_rows (rows_of_biomarker perf_df name)))%nat.

Lemma framework_analyse_biomarkers_results (biomarkers : list string)
    (meta_results : gmap string Framework.result) :
  exists results' : gmap string Framework.result,
    Framework.analyse_biomarkers norm_ppf cfg perf_df biomarkers meta_results
    = Ret results' /\
    forall name : string,
      (stored_name biomarkers name /\
       exists r : Framework.result,
         results' !! name = Some r /\
         Framework.calculate_meta_analysis norm_ppf cfg
           (valid_rows (rows_of_biomarker perf_df name)) = Ret r) \/
      (~ stored_name biomarkers name /\
       results' !! name = meta_results !! name).
Proof.
  revert meta_results.
  induction biomarkers as [|b rest IH]; intros meta_results.
  - exists meta_results. split; [reflexivity|].
    intros name. right. split; [|reflexivity]. intros [[] _].
  - simpl.
    destruct (Nat.leb_spec (Framework.min_studies_for_meta cfg)
                (length (valid_rows (rows_of_biomarker perf_df b))))
      as [Hsize|Hfew].
    + destruct (framework_calculate_ret norm_ppf cfg
                  (valid_rows (rows_of_biomarker perf_df b)))
        as (m & Hm & _).
      rewrite Hm. cbn.
      destruct (IH (<[b := m]> meta_results)) as (results' & -> & Hspec).
      exists results'. split; [reflexivity|]. intros name.
      destruct (Hspec name) as [[(Hin & Hsize') Hres]|[Hnot Hres]].
      * left. split; [|exact Hres]. split; [now right | exact Hsize'].
      * destruct (String.eqb_spec b name) as [<-|Hother].
        -- left. split; [split; [now left | exact Hsize]|].
           exists m. split; [|exact Hm].
           rewrite Hres. apply lookup_insert_eq.
        -- right. split.
           ++ intros ([Heq|Hin] & Hsize'); [congruence|].
              apply Hnot. now split.
           ++ rewrite Hres. now apply lookup_insert_ne.
    + destruct (IH meta_results) as (results' & -> & Hspec).
      exists results'. split; [reflexivity|]. intros name.
      destruct (Hspec name) as [[(Hin & Hsize') Hres]|[Hnot Hres]].
      * left. split; [|exact Hres]. split; [now right | exact Hsize'].
      * right. split; [|exact Hres].
        intros ([Heq|Hin] & Hsize'); [subst; lia|].
        apply Hnot. now split.
Qed.

End FrameworkLoop.

(** X15.  [perform_automated_meta_analysis] raises [KeyError] when there is
    no performance data.  Otherwise it does not raise: a name of the table
    (the empty name included) with at least [min_studies_for_meta] rows of
    performance data gets the result of [calculate_meta_analysis] for these
    rows, and the entry of every other name is what it was before the
    call. *)
Theorem framework_meta_analysis_stores
    (norm_ppf : R -> R) (cfg : Framework.config)
    (performance_data : list row)
    (meta_results : gmap string Framework.result) (name : string) :
  let valid := valid_rows (rows_of_biomarker performance_data name) in
  (performance_data = [] /\
   Framework.perform_automated_meta_analysis norm_ppf cfg performance_data
     meta_results = Raise KeyError) \/
  (performance_data <> [] /\
   exists results' : gmap string Framework.result,
     Framework.perform_automated_meta_analysis norm_ppf cfg performance_data
       meta_results = Ret results' /\
     ((In name (omap biomarker_name performance_data) /\
       (Framework.min_studies_for_meta cfg <= length valid)%nat /\
       exists r : Framework.result,
         results' !! name = Some r /\
         Framework.calculate_meta_analysis norm_ppf cfg valid = Ret r /\
         Framework.fr_n_studies r = length valid) \/
      ((~ In name (omap biomarker_name performance_data) \/
        (length valid < Framework.min_studies_for_meta cfg)%nat) /\
       results' !! name = meta_results !! name))).
Proof.
  intros valid. subst valid.
  destruct performance_data as [|row0 rows].
  - left. split; reflexivity.
  - right. split; [discriminate|].
    unfold Framework.perform_automated_meta_analysis. cbv iota.
    set (performance_data := row0 :: rows).
    assert (Hloop := framework_analyse_biomarkers_results norm_ppf cfg
                       performance_data
                       (unique (omap biomarker_name performance_data))
                       meta_results).
    destruct Hloop as (results' & Hloop & Hspec).
    exists results'. split; [exact Hloop|].
    destruct (Hspec name) as [[(Hin & Hsize) (r & Hres & Hcalc)]|[Hnot Hres]].
    + left. apply (proj1 (unique_In _ _)) in Hin. split; [exact Hin|].
      split; [exact Hsize|]. exists r. split; [exact Hres|].
      split; [exact Hcalc|].
      destruct (framework_calculate_ret norm_ppf cfg
                  (valid_rows (rows_of_biomarker performance_data name)))
        as (r' & Hcalc' & Hn).
      rewrite Hcalc in Hcalc'. injection Hcalc' as ->. exact Hn.
    + right. split; [|exact Hres].
      destruct (Nat.lt_ge_cases
                  (length (valid_rows
                             (rows_of_biomarker performance_data name)))
                  (Framework.min_studies_for_meta cfg)) as [Hfew|Hsize];
        [now right|].
      left. intros Hin. apply Hnot. split; [|exact Hsize].
      apply (proj2 (unique_In _ _)). exact Hin.
Qed.

(** ** Results of an earlier run *)

(** X18.  [perform_meta_analysis_by_biomarker] adds to [self.results] and
    never clears it.  Without data it leaves the results as they are.  With
    a table it overwrites the entry of every biomarker it pools now (a name
    that is not empty with at least two rows of performance data) and keeps
    the entry, if any, of every other name, also of names that are not in
    the table any more. *)
Theorem earlier_results_are_kept
    (norm_ppf : R -> R) (table : list row)
    (results : gmap string pooled_result) (name : string)
    (Hcols : indexed_columns table) :
  let valid := valid_rows (rows_of_biomarker table name) in
  perform_meta_analysis_by_biomarker norm_ppf None results = Ret results /\
  exists results' : gmap string pooled_result,
    perform_meta_analysis_by_biomarker norm_ppf (Some table) results
    = Ret results' /\
    ((2 <= length valid)%nat /\ name <> EmptyString /\
     (exists r : pooled_result,
        results' !! name = Some r /\
        calculate_pooled_estimates norm_ppf valid = Ret r) \/
     ((length valid < 2)%nat \/ name = EmptyString) /\
     results' !! name = results !! name).
Proof.
  intros valid. subst valid. split; [reflexivity|].
  unfold perform_meta_analysis_by_biomarker.
  destruct (analyse_biomarkers_results norm_ppf table Hcols
              (unique (omap biomarker_name table)) results)
    as (results' & Hloop & Hspec).
  exists results'. split; [exact Hloop|].
  destruct (Hspec name) as [[(Hin & Hne & Hsize) Hres]|[Hnot Hres]].
  - left. split; [exact Hsize|]. split; [exact Hne|].
    destruct (calculate_pooled_estimates_ret norm_ppf
                (valid_rows (rows_of_biomarker table name)))
      as (r & Hcalc & _).
    { apply indexed_columns_filter, indexed_columns_filter, Hcols. }
    exists r. split; [|exact Hcalc].
    unfold meta_analysis_of_biomarker in Hres. cbv zeta in Hres.
    apply Nat.ltb_ge in Hsize. rewrite Hsize, Hcalc in Hres.
    cbn in Hres. now injection Hres.
  - right. split; [|exact Hres].
    destruct (String.eqb_spec name EmptyString) as [Hempty|Hne];
      [now right|].
    destruct (Nat.lt_ge_cases
                (length (valid_rows (rows_of_biomarker table name))) 2)
      as [Hfew|Hsize]; [now left|].
    exfalso. apply Hnot. split; [|now split].
    apply (proj2 (unique_In _ _)), rows_of_biomarker_In. intros Hnil.
    rewrite Hnil in Hsize. simpl in Hsize. lia.
Qed.

Lemma earlier_results_are_kept_witness :
  indexed_columns scenario /\
  exists results' : gmap string pooled_result,
    perform_meta_analysis_by_biomarker (fun _ => 196 / 100) (Some scenario)
      empty = Ret results' /\
    results' !! "Lactate" = None.
Proof.
  assert (Hcols : indexed_columns scenario) by (repeat constructor).
  split; [exact Hcols|].
  destruct (earlier_results_are_kept (fun _ => 196 / 100) scenario empty
              "Lactate" Hcols)
    as (_ & results' & Hloop & [(Hsize & _)|(_ & Hkept)]).
  - simpl in Hsize. lia.
  - exists results'. split; [exact Hloop|].
    rewrite Hkept. apply lookup_empty.
Defined.

Lemma recommendations_follow_thresholds_witness :
  let r := mkPooledResult 2 2 2
             (Some (mkMetricPool 80 1 78 82 0))
             (Some (mkMetricPool 90 1 88 92 0))
             None [] [] [] None None in
  (exists (name : string) (r' : pooled_result),
     In (name, r') [("GDF-15", r)] /\
     70 < pooled_or_0 (sensitivity r') /\
     80 < pooled_or_0 (specificity r')) /\
  exists rec : recommendation,
    In rec (generate_recommendations [("GDF-15", r)]) /\
    category rec = "Clinical Implementation".
Proof.
  intros r.
  assert (Hqualified : exists (name : string) (r' : pooled_result),
             In (name, r') [("GDF-15", r)] /\
             70 < pooled_or_0 (sensitivity r') /\
             80 < pooled_or_0 (specificity r')).
  { exists "GDF-15", r. split; [now left|]. simpl. lra. }
  split; [exact Hqualified|].
  destruct (recommendations_follow_thresholds [("GDF-15", r)])
    as (_ & [_ Hclinical] & _).
  apply Hclinical. exact Hqualified.
Defined.
